(** * Background-removal service: the upload handler and the image pipeline

    A shallow embedding of [app.py] and [model_loader.py].  Python
    exceptions are values of an error monad, the Pillow operations the
    pipeline calls are functions on explicit rasters, Python floats are
    binary64 numbers of [SpecFloat], and the collaborators the repository
    only calls (the PNG/JPEG codec, the Lanczos resampler, rembg's [remove])
    are fields of an environment record. *)

From Stdlib Require Import ZArith List String Ascii Bool Lia.
From Stdlib Require Import Strings.Byte Numbers.DecimalString.
From Stdlib Require Import Floats.SpecFloat.
Import ListNotations.

Open Scope Z_scope.

(* ===================================================================== *)
(** * Python runtime *)
(* ===================================================================== *)

Module Py.

Definition bytes := list byte.

(** An exception object of a class derived from [Exception], the ones an
    [except Exception] clause catches: its class name and the text
    [str(e)] yields. *)
Record exn := Exn { exn_class : string; exn_msg : string }.

Definition str (e : exn) : string := exn_msg e.

Definition ValueError := Exn "ValueError".
Definition RuntimeError := Exn "RuntimeError".
Definition IndexError := Exn "IndexError".
Definition OverflowError := Exn "OverflowError".
Definition ZeroDivisionError := Exn "ZeroDivisionError".

(** A computation that returns or raises. *)
Definition result (A : Type) : Type := (exn + A)%type.

Definition ret {A} (a : A) : result A := inr a.
Definition raise {A} (e : exn) : result A := inl e.

Definition bind {A B} (c : result A) (k : A -> result B) : result B :=
  match c with
  | inl e => inl e
  | inr a => k a
  end.

(** [try: c  except Exception as e: h e] *)
Definition try_except {A} (c : result A) (h : exn -> result A) : result A :=
  match c with
  | inl e => h e
  | inr a => inr a
  end.

(** [str(n)] for an int. *)
Definition str_int (n : Z) : string := NilZero.string_of_int (Z.to_int n).

(** [str(x)] for an optional string: [None] prints as its name. *)
Definition str_opt (o : option string) : string :=
  match o with
  | Some s => s
  | None => "None"%string
  end.

(** ** Floats: IEEE 754 binary64, round to nearest even *)

Definition prec : Z := 53.
Definition emax : Z := 1024.

Definition float := spec_float.

(** The conversion an int undergoes when it meets a float.  It is exact
    below 2^53 in magnitude and raises above the range of a float. *)
Definition float_of_int (n : Z) : result float :=
  match binary_normalize prec emax n 0 false with
  | S754_infinity _ => raise (OverflowError "int too large to convert to float")
  | f => ret f
  end.

(** [a / b] on ints: the correctly rounded quotient.  (For operands below
    2^53, as image dimensions are, both conversions are exact.) *)
Definition truediv (a b : Z) : result float :=
  if b =? 0 then raise (ZeroDivisionError "division by zero")
  else
    bind (float_of_int a) (fun fa =>
    bind (float_of_int b) (fun fb =>
    ret (SFdiv prec emax fa fb))).

(** [n * x] for an int [n] and a float [x]. *)
Definition mul_int_float (n : Z) (x : float) : result float :=
  bind (float_of_int n) (fun fn => ret (SFmul prec emax fn x)).

(** [int(x)]: truncation toward zero; infinities and NaN raise. *)
Definition int (x : float) : result Z :=
  match x with
  | S754_zero _ => ret 0
  | S754_finite s m e =>
      let v := Z.shiftl (Zpos m) e in
      ret (if s then - v else v)
  | S754_infinity _ =>
      raise (OverflowError "cannot convert float infinity to integer")
  | S754_nan => raise (ValueError "cannot convert float NaN to integer")
  end.

End Py.

Declare Scope py_scope.
Delimit Scope py_scope with py.
Notation "x <- c ;; k" := (Py.bind c (fun x => k))
  (at level 61, c at next level, right associativity) : py_scope.

(* ===================================================================== *)
(** * Pillow: the operations the pipeline calls *)
(* ===================================================================== *)

Module PIL.
Import Py.

(** Pixel data by mode, 8 bits a band.  A palette entry carries the alpha
    the file's transparency table gives it (255 without one).  An L or RGB
    image comes a second time with the colour key a file can declare for
    it (the tRNS chunk of a PNG, which Pillow keeps in
    [info["transparency"]]): the one colour that is to read as transparent,
    its bands bytes.  A key on a mode-1 image and the modes of more than 8
    bits a band are outside the model. *)
Inductive raster :=
| Mode1 (d : list Z)
| ModeL (d : list Z)
| ModeLA (d : list (Z * Z))
| ModeP (palette : list (Z * Z * Z * Z)) (d : list Z)
| ModeRGB (d : list (Z * Z * Z))
| ModeRGBA (d : list (Z * Z * Z * Z))
| ModeLT (key : Z) (d : list Z)
| ModeRGBT (key : Z * Z * Z) (d : list (Z * Z * Z)).

Record Image := { size : Z * Z; im : raster }.

Definition raster_mode (r : raster) : string :=
  match r with
  | Mode1 _ => "1"
  | ModeL _ => "L"
  | ModeLA _ => "LA"
  | ModeP _ _ => "P"
  | ModeRGB _ => "RGB"
  | ModeRGBA _ => "RGBA"
  | ModeLT _ _ => "L"
  | ModeRGBT _ _ => "RGB"
  end.

Definition mode (image : Image) : string := raster_mode (im image).

(** [Image.new('RGB', size, color)] *)
Definition new_RGB (sz : Z * Z) (color : Z * Z * Z) : Image :=
  {| size := sz;
     im := ModeRGB (repeat color (Z.to_nat (fst sz * snd sz))) |}.

Definition palette_entry (palette : list (Z * Z * Z * Z)) (i : Z)
  : Z * Z * Z * Z :=
  nth (Z.to_nat i) palette (0, 0, 0, 255).

Definition bit (v : Z) : Z := if v =? 0 then 0 else 255.

Definition rgb_eqb (a b : Z * Z * Z) : bool :=
  let '(r1, g1, b1) := a in
  let '(r2, g2, b2) := b in
  (r1 =? r2) && (g1 =? g2) && (b1 =? b2).

(** Pillow's transparent conversion of one pixel under a colour key: the
    colour stays, and the alpha is 0 on the key colour and 255 on any
    other. *)
Definition keyed (key c : Z * Z * Z) : Z * Z * Z * Z :=
  (c, if rgb_eqb c key then 0 else 255).

(** The colour key of a raster, as a colour. *)
Definition colour_key (r : raster) : option (Z * Z * Z) :=
  match r with
  | ModeLT key _ => Some (key, key, key)
  | ModeRGBT key _ => Some key
  | _ => None
  end.

(** The key Pillow reads off a palette whose transparency is one fully
    transparent entry among opaque ones (it then keeps the entry's index,
    not a table of alphas): the colour of that entry. *)
Definition palette_key (palette : list (Z * Z * Z * Z)) : option (Z * Z * Z) :=
  match filter (fun '(_, _, _, a) => negb (a =? 255)) palette with
  | [(r, g, b, 0)] => Some (r, g, b)
  | _ => None
  end.

(** The band-wise conversions of [Image.convert].  Toward RGB the alpha of
    LA, P and RGBA pixels is dropped; toward RGBA a pixel without alpha
    becomes opaque, unless the image has a colour key: then the pixels of
    the key colour become fully transparent. *)
Definition to_RGB (r : raster) : list (Z * Z * Z) :=
  match r with
  | Mode1 d => map (fun v => (bit v, bit v, bit v)) d
  | ModeL d => map (fun v => (v, v, v)) d
  | ModeLA d => map (fun '(v, _) => (v, v, v)) d
  | ModeP palette d =>
      map (fun i => let '(r, g, b, _) := palette_entry palette i in (r, g, b)) d
  | ModeRGB d => d
  | ModeRGBA d => map (fun '(r, g, b, _) => (r, g, b)) d
  | ModeLT _ d => map (fun v => (v, v, v)) d
  | ModeRGBT _ d => d
  end.

Definition to_RGBA (r : raster) : list (Z * Z * Z * Z) :=
  match r with
  | Mode1 d => map (fun v => (bit v, bit v, bit v, 255)) d
  | ModeL d => map (fun v => (v, v, v, 255)) d
  | ModeLA d => map (fun '(v, a) => (v, v, v, a)) d
  | ModeP palette d => map (palette_entry palette) d
  | ModeRGB d => map (fun '(r, g, b) => (r, g, b, 255)) d
  | ModeRGBA d => d
  | ModeLT key d => map (fun v => keyed (key, key, key) (v, v, v)) d
  | ModeRGBT key d => map (keyed key) d
  end.

(** The raster [convert('RGB')] returns.  A colour key goes along,
    converted like a pixel; a table of palette alphas does not. *)
Definition raster_to_RGB (r : raster) : raster :=
  match r with
  | ModeLT key _ => ModeRGBT (key, key, key) (to_RGB r)
  | ModeRGBT key _ => ModeRGBT key (to_RGB r)
  | ModeP palette _ =>
      match palette_key palette with
      | Some key => ModeRGBT key (to_RGB r)
      | None => ModeRGB (to_RGB r)
      end
  | _ => ModeRGB (to_RGB r)
  end.

(** [image.convert(mode)] for the two targets the pipeline asks for. *)
Definition convert (image : Image) (target : string) : result Image :=
  if (target =? "RGB")%string then
    ret {| size := size image; im := raster_to_RGB (im image) |}
  else if (target =? "RGBA")%string then
    ret {| size := size image; im := ModeRGBA (to_RGBA (im image)) |}
  else raise (ValueError "conversion not supported").

(** [image.split()]: one L image a band (a P or 1 image is its own band). *)
Definition split (image : Image) : list Image :=
  let band d := {| size := size image; im := ModeL d |} in
  match im image with
  | Mode1 _ | ModeL _ | ModeP _ _ | ModeLT _ _ => [image]
  | ModeLA d => [band (map fst d); band (map snd d)]
  | ModeRGB d | ModeRGBT _ d =>
      [band (map (fun '(r, _, _) => r) d);
       band (map (fun '(_, g, _) => g) d);
       band (map (fun '(_, _, b) => b) d)]
  | ModeRGBA d =>
      [band (map (fun '(r, _, _, _) => r) d);
       band (map (fun '(_, g, _, _) => g) d);
       band (map (fun '(_, _, b, _) => b) d);
       band (map (fun '(_, _, _, a) => a) d)]
  end.

(** [bands[i]] *)
Definition getitem (bands : list Image) (i : nat) : result Image :=
  match nth_error bands i with
  | Some b => ret b
  | None => raise (IndexError "tuple index out of range")
  end.

(** The blend of Pillow's paste with an L mask:
    [DIV255(in1 * (255 - mask) + in2 * mask)]. *)
Definition DIV255 (a : Z) : Z :=
  let tmp := a + 128 in Z.shiftr (Z.shiftr tmp 8 + tmp) 8.

Definition BLEND (mask in1 in2 : Z) : Z :=
  DIV255 (in1 * (255 - mask) + in2 * mask).

Fixpoint paste_mask_L (out inp : list (Z * Z * Z)) (mask : list Z)
  : list (Z * Z * Z) :=
  match out, inp, mask with
  | (r1, g1, b1) :: out', (r2, g2, b2) :: inp', a :: mask' =>
      (BLEND a r1 r2, BLEND a g1 g2, BLEND a b1 b2)
        :: paste_mask_L out' inp' mask'
  | _, _, _ => out
  end.

Fixpoint paste_copy (out inp : list (Z * Z * Z)) : list (Z * Z * Z) :=
  match out, inp with
  | _ :: out', p :: inp' => p :: paste_copy out' inp'
  | _, _ => out
  end.

Definition size_eqb (a b : Z * Z) : bool :=
  (fst a =? fst b) && (snd a =? snd b).

(** [dst.paste(src, mask=mask)] into an RGB image, from an image of the
    same size whose mode needs no conversion first (RGB or RGBA), at the
    origin. *)
Definition paste (dst src : Image) (mask : option Image) : result Image :=
  match im dst, im src with
  | ModeRGB out, (ModeRGB _ | ModeRGBA _ | ModeRGBT _ _) =>
      if negb (size_eqb (size src) (size dst)) then
        raise (ValueError "images do not match")
      else
        match mask with
        | None =>
            ret {| size := size dst;
                   im := ModeRGB (paste_copy out (to_RGB (im src))) |}
        | Some m =>
            match im m with
            | ModeL a =>
                if negb (size_eqb (size m) (size src)) then
                  raise (ValueError "images do not match")
                else
                  ret {| size := size dst;
                         im := ModeRGB
                                 (paste_mask_L out (to_RGB (im src)) a) |}
            | _ => raise (ValueError "bad transparency mask")
            end
        end
  | _, _ => raise (ValueError "paste not supported")
  end.

(** [image.resize(size, resample)]: Pillow refuses an empty target; the
    pixels of the result are the resampler's. *)
Definition resize (resample : Image -> Z * Z -> raster)
           (image : Image) (sz : Z * Z) : result Image :=
  if (fst sz <? 1) || (snd sz <? 1) then
    raise (ValueError "height and width must be > 0")
  else ret {| size := sz; im := resample image sz |}.

End PIL.

(* ===================================================================== *)
(** * The collaborators the repository only calls *)
(* ===================================================================== *)

(** [Image_open] is [Image.open] together with the pixel load it defers,
    [save_PNG] is [image.save(buffer, format='PNG')] followed by
    [buffer.getvalue()], [LANCZOS] is the resampling filter, [remove] is
    rembg's function and [REMBG_AVAILABLE] tells whether importing it
    succeeded. *)
Record Env := {
  Image_open : Py.bytes -> Py.result PIL.Image;
  save_PNG : PIL.Image -> Py.bytes;
  LANCZOS : PIL.Image -> Z * Z -> PIL.raster;
  REMBG_AVAILABLE : bool;
  remove : Py.bytes -> Py.result Py.bytes
}.

(* ===================================================================== *)
(** * model_loader.py *)
(* ===================================================================== *)

Module ModelLoader.
Import Py.
Local Open Scope py_scope.

(** Calls of the logger are left out throughout: they return nothing and
    change nothing.  So is line 67, which reads [image.format] into a name
    nothing uses. *)

(** An instance has no attributes. *)
Inductive BackgroundRemover := bg_remover_instance.

Section WithEnv.
Variable env : Env.

(** [BackgroundRemover.__init__] *)
Definition init : result BackgroundRemover :=
  if negb (REMBG_AVAILABLE env) then
    raise (RuntimeError
             "rembg library is not installed. Install it with: pip install rembg[new]")
  else
    _ <- try_except
           (let test_image := PIL.new_RGB (100, 100) (255, 255, 255) in
            let test_bytes := save_PNG env test_image in
            _ <- remove env test_bytes ;;
            ret tt)
           (fun e => raise e) ;;
    ret bg_remover_instance.

Definition max_size : Z := 2048.

(** Lines 72-73: the target size of the downscale. *)
Definition new_size (sz : Z * Z) : result (Z * Z) :=
  ratio <- truediv max_size (Z.max (fst sz) (snd sz)) ;;
  w <- (x <- mul_int_float (fst sz) ratio ;; int x) ;;
  h <- (x <- mul_int_float (snd sz) ratio ;; int x) ;;
  ret (w, h).

(** Lines 69-75: resize if too large. *)
Definition resize_step (image : PIL.Image) : result PIL.Image :=
  if Z.max (fst (PIL.size image)) (snd (PIL.size image)) >? max_size then
    sz <- new_size (PIL.size image) ;;
    PIL.resize (LANCZOS env) image sz
  else ret image.

(** Lines 77-85: convert to RGB if needed. *)
Definition rgb_step (image : PIL.Image) : result PIL.Image :=
  if negb (PIL.mode image =? "RGB")%string then
    if (PIL.mode image =? "RGBA")%string then
      let rgb_image := PIL.new_RGB (PIL.size image) (255, 255, 255) in
      mask <- (if (PIL.mode image =? "RGBA")%string
               then (b <- PIL.getitem (PIL.split image) 3 ;; ret (Some b))
               else ret None) ;;
      PIL.paste rgb_image image mask
    else PIL.convert image "RGB"
  else ret image.

(** Lines 64-85, the Image Normalizer: decode, bound the size, make RGB. *)
Definition normalize (image_data : bytes) : result PIL.Image :=
  image <- Image_open env image_data ;;
  image <- resize_step image ;;
  rgb_step image.

(** Lines 95-100: the model's output as an RGBA image. *)
Definition rgba_step (output_bytes : bytes) : result PIL.Image :=
  output_image <- Image_open env output_bytes ;;
  if negb (PIL.mode output_image =? "RGBA")%string
  then PIL.convert output_image "RGBA"
  else ret output_image.

(** Lines 87-107, the Segmentation Adapter. *)
Definition segment (image : PIL.Image) : result bytes :=
  let input_bytes := save_PNG env image in
  output_bytes <- remove env input_bytes ;;
  output_image <- rgba_step output_bytes ;;
  ret (save_PNG env output_image).

(** [BackgroundRemover.remove_background]: the body of the [try] and
    its handler, which wraps every failure. *)
Definition remove_background (self : BackgroundRemover)
           (image_data : bytes) : result bytes :=
  try_except
    (image <- normalize image_data ;; segment image)
    (fun e => raise (RuntimeError
                       ("Failed to remove background: " ++ str e)%string)).

(** [BackgroundRemover.preprocess_image], which nothing calls. *)
Definition preprocess_image (self : BackgroundRemover)
           (image : PIL.Image) : result PIL.Image :=
  image <- (if Z.max (fst (PIL.size image)) (snd (PIL.size image)) >? max_size
            then (sz <- new_size (PIL.size image) ;;
                  PIL.resize (LANCZOS env) image sz)
            else ret image) ;;
  if negb (PIL.mode image =? "RGB")%string
  then PIL.convert image "RGB"
  else ret image.

End WithEnv.
End ModelLoader.

(* ===================================================================== *)
(** * app.py *)
(* ===================================================================== *)

Module App.
Import Py.

(** What a handler raises: an [HTTPException], which the framework turns
    into a response of that status; another exception derived from
    [Exception]; or one that is not derived from it (a cancellation
    delivered at an [await], an interrupt), which no [except Exception]
    clause catches. *)
Inductive error :=
| HTTPException (status_code : Z) (detail : string)
| Other (e : exn)
| BaseException (e : exn).

(** The calls a handler makes that the claims speak of. *)
Inductive event :=
| FileRead
| RemoveBackground (image_data : bytes).

(** A handler step: a value or an error, and the calls made so far. *)
Definition H (A : Type) : Type := ((error + A) * list event)%type.

Definition hret {A} (a : A) : H A := (inr a, []).
Definition hraise {A} (e : error) : H A := (inl e, []).
Definition hbind {A B} (c : H A) (k : A -> H B) : H B :=
  match c with
  | (inl e, t) => (inl e, t)
  | (inr a, t) => let '(r, t') := k a in (r, t ++ t')
  end.

(** A call of a collaborator, logged: what it returns is its value, what
    it raises is raised here as it is. *)
Definition call {A} (ev : event) (c : error + A) : H A :=
  match c with
  | inl e => (inl e, [ev])
  | inr a => (inr a, [ev])
  end.

(** A computation of [model_loader.py] as the handler meets it.  What it
    raises derives from [Exception]; it is no [HTTPException], which that
    module never constructs. *)
Definition from_loader {A} (c : result A) : error + A :=
  match c with
  | inl e => inl (Other e)
  | inr a => inr a
  end.

(** [try: c  except HTTPException: raise  except Exception as e: h e]:
    an [HTTPException] is raised again, and so passes what neither clause
    catches. *)
Definition try_except_http {A} (c : H A) (h : exn -> H A) : H A :=
  match c with
  | (inl (Other e), t) => let '(r, t') := h e in (r, t ++ t')
  | other => other
  end.

Inductive json := JString (s : string) | JBool (b : bool).

(** What a handler hands to the framework when it returns. *)
Inductive returned :=
| Dict (items : list (string * json))
| Response (content : bytes) (media_type : string)
           (headers : list (string * string)).

(** The status the client sees: 200 for a returned value, the exception's
    own for an [HTTPException], 500 for anything else that leaves the
    handler. *)
Definition status_of (r : error + returned) : Z :=
  match r with
  | inr _ => 200
  | inl (HTTPException s _) => s
  | inl (Other _) => 500
  | inl (BaseException _) => 500
  end.

(** The multipart upload: its declared type and name, and what
    [await file.read()] yields: the body, or what the read raises, which
    can be any exception, an [HTTPException] among them.  The read is the
    handler's only [await]. *)
Record UploadFile := {
  content_type : option string;
  filename : option string;
  read : error + bytes
}.

(** The module-level [bg_remover]. *)
Definition state := option ModelLoader.BackgroundRemover.

Definition initial : state := None.

Section WithEnv.
Variable env : Env.

(** [startup_event]: a failed load is raised again and leaves the global
    as it was. *)
Definition startup_event (bg_remover : state) : result state :=
  try_except
    (bind (ModelLoader.init env) (fun r => ret (Some r)))
    (fun e => raise e).

Definition shutdown_event (bg_remover : state) : state := None.

Definition is_not_None {A} (o : option A) : bool :=
  match o with Some _ => true | None => false end.

(** [GET /health] *)
Definition health_check (bg_remover : state) : H returned :=
  hret (Dict [("status", JString "healthy");
              ("model_loaded", JBool (is_not_None bg_remover));
              ("service", JString "u2net-background-removal")]%string).

Definition allowed_types : list string :=
  ["image/jpeg"; "image/png"; "image/jpg"]%string.

(** [file.content_type not in [...]]: an absent type is in no list. *)
Definition not_in_allowed (ct : option string) : bool :=
  match ct with
  | Some s => negb (existsb (String.eqb s) allowed_types)
  | None => true
  end.

(** A text between double quotes. *)
Definition quoted (s : string) : string :=
  (String "034"%char s ++ String "034"%char "")%string.

Definition len (b : bytes) : Z := Z.of_nat (List.length b).

(** [POST /remove-bg].  [elapsed] is the text of
    [f"{processing_time:.2f}"], the difference of two readings of the
    wall clock. *)
Definition remove_background (bg_remover : state) (file : UploadFile)
           (elapsed : string) : H returned :=
  match bg_remover with
  | None =>
      hraise (HTTPException 503
        "Background removal service is not available. Model not loaded.")
  | Some remover =>
      if not_in_allowed (content_type file) then
        hraise (HTTPException 400
          ("Invalid file type. Only JPG and PNG are supported. Got: "
             ++ str_opt (content_type file))%string)
      else
        try_except_http
          (hbind (call FileRead (read file)) (fun image_data =>
           let max_size := 10 * 1024 * 1024 in
           if len image_data >? max_size then
             hraise (HTTPException 400
               ("File too large. Maximum size is 10MB. Got: "
                  ++ str_int (len image_data) ++ " bytes")%string)
           else
             hbind (call (RemoveBackground image_data)
                      (from_loader
                         (ModelLoader.remove_background env remover
                            image_data)))
               (fun result_png =>
             hret (Response result_png "image/png"
                     [("Content-Disposition",
                       "attachment; filename=" ++ quoted "bgremoved.png");
                      ("X-Processing-Time", elapsed)]%string))))
          (fun e =>
             hraise (HTTPException 500
                       ("Failed to process image: " ++ str e)%string))
  end.

End WithEnv.
End App.

(* ===================================================================== *)
(** * The specification's own words, for comparison with the code *)
(* ===================================================================== *)

Module Spec.

(** A mode "has a transparency channel": LA, RGBA, or a palette whose
    transparency table makes some entry other than opaque. *)
Definition has_transparency (r : PIL.raster) : bool :=
  match r with
  | PIL.ModeLA _ | PIL.ModeRGBA _ => true
  | PIL.ModeP palette _ =>
      existsb (fun '(_, _, _, a) => negb (a =? 255)) palette
  | _ => false
  end.

(** A pixel over white, its alpha the blend weight. *)
Definition over_white (p : Z * Z * Z * Z) : Z * Z * Z :=
  let '(r, g, b, a) := p in
  (PIL.BLEND a 255 r, PIL.BLEND a 255 g, PIL.BLEND a 255 b).

(** "Composite the image onto an opaque white background using the
    transparency channel as blend weight, producing a 3-channel result." *)
Definition composite_on_white (image : PIL.Image) : PIL.Image :=
  {| PIL.size := PIL.size image;
     PIL.im := PIL.ModeRGB (map over_white (PIL.to_RGBA (PIL.im image))) |}.

(** "Otherwise, convert to 3-channel color using the standard conversion
    for that mode." *)
Definition standard_conversion (image : PIL.Image) : PIL.Image :=
  {| PIL.size := PIL.size image;
     PIL.im := PIL.raster_to_RGB (PIL.im image) |}.


(** "Convert it to 4-channel by adding a fully-opaque transparency
    channel." *)
Definition add_opaque_channel (image : PIL.Image) : PIL.Image :=
  {| PIL.size := PIL.size image;
     PIL.im := PIL.ModeRGBA
                 (map (fun c => (c, 255)) (PIL.to_RGB (PIL.im image))) |}.

(** The last step of the Segmentation Adapter as the specification words
    it. *)
Definition to_four_channel (image : PIL.Image) : PIL.Image :=
  if (PIL.mode image =? "RGBA")%string then image
  else add_opaque_channel image.

End Spec.

(* ===================================================================== *)
(** * Well-formed rasters and the contracts of the collaborators *)
(* ===================================================================== *)

Definition raster_length (r : PIL.raster) : nat :=
  match r with
  | PIL.Mode1 d | PIL.ModeL d | PIL.ModeP _ d | PIL.ModeLT _ d => List.length d
  | PIL.ModeLA d => List.length d
  | PIL.ModeRGB d | PIL.ModeRGBT _ d => List.length d
  | PIL.ModeRGBA d => List.length d
  end.

(** An image has as many pixels as its size says. *)
Definition well_formed (image : PIL.Image) : Prop :=
  raster_length (PIL.im image)
  = Z.to_nat (fst (PIL.size image) * snd (PIL.size image)).

(** A band value is a byte. *)
Definition is_byte (v : Z) : Prop := 0 <= v <= 255.

(** PNG is lossless for RGBA: opening what was saved gives the image back. *)
Definition png_lossless (env : Env) : Prop :=
  forall image,
    PIL.mode image = "RGBA"%string ->
    Image_open env (save_PNG env image) = inr image.

(** Resampling keeps the mode. *)
Definition resample_keeps_mode (env : Env) : Prop :=
  forall image sz,
    PIL.raster_mode (LANCZOS env image sz) = PIL.mode image.

Definition longer_side (image : PIL.Image) : Z :=
  Z.max (fst (PIL.size image)) (snd (PIL.size image)).

(** Sides an image can have: positive and within a C int. *)
Definition valid_size (sz : Z * Z) : Prop :=
  0 < fst sz < 2 ^ 31 /\ 0 < snd sz < 2 ^ 31.

(** The resize step has something to do and a target to do it with: the
    image is small enough to pass, or both truncated sides are positive. *)
Definition target_defined (image : PIL.Image) : Prop :=
  longer_side image <= 2048 \/
  exists sz,
    ModelLoader.new_size (PIL.size image) = inr sz /\
    1 <= fst sz /\ 1 <= snd sz.

(** The model answers this picture with one of the same size. *)
Definition keeps_size (env : Env) (image : PIL.Image) : Prop :=
  forall model_bytes model_image,
    remove env (save_PNG env image) = inr model_bytes ->
    Image_open env model_bytes = inr model_image ->
    PIL.size model_image = PIL.size image.

(** An image made RGBA by [convert], whatever its mode was. *)
Definition as_RGBA (image : PIL.Image) : PIL.Image :=
  {| PIL.size := PIL.size image;
     PIL.im := PIL.ModeRGBA (PIL.to_RGBA (PIL.im image)) |}.

(** The upload declares one of the allowed content types. *)
Definition allowed (file : App.UploadFile) : Prop :=
  exists s, App.content_type file = Some s /\ In s App.allowed_types.

(** [s] occurs in [t]. *)
Definition includes (s t : string) : Prop :=
  exists pre post, t = (pre ++ s ++ post)%string.

(* ===================================================================== *)
(** * A small environment to run the code in *)
(* ===================================================================== *)

Module Demo.
Import Py.

(** A lossless container for RGBA images: a tag, the two sides, the
    number of pixels, the pixels; every number in unary. *)
Definition enc_nat (n : nat) : bytes := repeat x01 n ++ [x00].

Fixpoint dec_nat (b : bytes) : option (nat * bytes) :=
  match b with
  | x00 :: rest => Some (O, rest)
  | x01 :: rest =>
      match dec_nat rest with
      | Some (n, rest') => Some (S n, rest')
      | None => None
      end
  | _ => None
  end.

Definition enc_Z (z : Z) : bytes :=
  (if z <? 0 then x01 else x00) :: enc_nat (Z.abs_nat z).

Definition dec_Z (b : bytes) : option (Z * bytes) :=
  match b with
  | x00 :: rest =>
      match dec_nat rest with
      | Some (n, rest') => Some (Z.of_nat n, rest')
      | None => None
      end
  | x01 :: rest =>
      match dec_nat rest with
      | Some (n, rest') => Some (- Z.of_nat n, rest')
      | None => None
      end
  | _ => None
  end.

Definition enc_pixel (p : Z * Z * Z * Z) : bytes :=
  let '(r, g, b, a) := p in enc_Z r ++ enc_Z g ++ enc_Z b ++ enc_Z a.

Definition dec_pixel (b : bytes) : option (Z * Z * Z * Z * bytes) :=
  match dec_Z b with
  | Some (r, b1) =>
      match dec_Z b1 with
      | Some (g, b2) =>
          match dec_Z b2 with
          | Some (bl, b3) =>
              match dec_Z b3 with
              | Some (a, b4) => Some (r, g, bl, a, b4)
              | None => None
              end
          | None => None
          end
      | None => None
      end
  | None => None
  end.

Fixpoint enc_pixels (d : list (Z * Z * Z * Z)) : bytes :=
  match d with
  | [] => []
  | p :: d' => enc_pixel p ++ enc_pixels d'
  end.

Fixpoint dec_pixels (n : nat) (b : bytes)
  : option (list (Z * Z * Z * Z) * bytes) :=
  match n with
  | O => Some ([], b)
  | S n' =>
      match dec_pixel b with
      | Some (p, b') =>
          match dec_pixels n' b' with
          | Some (d, b'') => Some (p :: d, b'')
          | None => None
          end
      | None => None
      end
  end.

Definition enc_rgba (sz : Z * Z) (d : list (Z * Z * Z * Z)) : bytes :=
  enc_Z (fst sz) ++ enc_Z (snd sz) ++ enc_nat (List.length d) ++ enc_pixels d.

Definition dec_rgba (b : bytes) : option PIL.Image :=
  match dec_Z b with
  | Some (w, b1) =>
      match dec_Z b1 with
      | Some (h, b2) =>
          match dec_nat b2 with
          | Some (n, b3) =>
              match dec_pixels n b3 with
              | Some (d, []) =>
                  Some {| PIL.size := (w, h); PIL.im := PIL.ModeRGBA d |}
              | _ => None
              end
          | None => None
          end
      | None => None
      end
  | None => None
  end.

(** Sample uploads in other modes, each a single byte. *)
Definition la_pixel : PIL.Image :=
  {| PIL.size := (1, 1); PIL.im := PIL.ModeLA [(0, 0)] |}.

Definition grey_pixel : PIL.Image :=
  {| PIL.size := (1, 1); PIL.im := PIL.ModeL [7] |}.

Definition rgb_pixel : PIL.Image :=
  {| PIL.size := (1, 1); PIL.im := PIL.ModeRGB [(10, 20, 30)] |}.

Definition rgba_pixel : PIL.Image :=
  {| PIL.size := (1, 1); PIL.im := PIL.ModeRGBA [(10, 20, 30, 0)] |}.

(** An RGB pixel of the colour its file declares transparent. *)
Definition keyed_pixel : PIL.Image :=
  {| PIL.size := (1, 1);
     PIL.im := PIL.ModeRGBT (10, 20, 30) [(10, 20, 30)] |}.

Definition strip : PIL.Image :=
  {| PIL.size := (4097, 1);
     PIL.im := PIL.ModeRGB (repeat (0, 0, 0) 4097) |}.

Definition slab : PIL.Image :=
  {| PIL.size := (2215, 3);
     PIL.im := PIL.ModeRGB (repeat (0, 0, 0) (Z.to_nat (2215 * 3))) |}.

Definition open (b : bytes) : result PIL.Image :=
  match b with
  | x52 :: rest =>
      match dec_rgba rest with
      | Some image => ret image
      | None => raise (Exn "UnidentifiedImageError" "cannot identify image file")
      end
  | [x41] => ret la_pixel
  | [x4c] => ret grey_pixel
  | [x43] => ret rgb_pixel
  | [x4b] => ret keyed_pixel
  | [x57] => ret strip
  | [x53] => ret slab
  | _ => raise (Exn "UnidentifiedImageError" "cannot identify image file")
  end.

Definition save (image : PIL.Image) : bytes :=
  match PIL.im image with
  | PIL.ModeRGBA d => x52 :: enc_rgba (PIL.size image) d
  | PIL.ModeLA _ => [x41]
  | PIL.ModeL _ => [x4c]
  | _ => [x43]
  end.

(** A resampler that keeps the mode and paints everything black. *)
Definition blank (image : PIL.Image) (sz : Z * Z) : PIL.raster :=
  let n := Z.to_nat (fst sz * snd sz) in
  match PIL.im image with
  | PIL.Mode1 _ => PIL.Mode1 (repeat 0 n)
  | PIL.ModeL _ => PIL.ModeL (repeat 0 n)
  | PIL.ModeLA _ => PIL.ModeLA (repeat (0, 0) n)
  | PIL.ModeP palette _ => PIL.ModeP palette (repeat 0 n)
  | PIL.ModeRGB _ => PIL.ModeRGB (repeat (0, 0, 0) n)
  | PIL.ModeRGBA _ => PIL.ModeRGBA (repeat (0, 0, 0, 0) n)
  | PIL.ModeLT key _ => PIL.ModeLT key (repeat 0 n)
  | PIL.ModeRGBT key _ => PIL.ModeRGBT key (repeat (0, 0, 0) n)
  end.

(** The environment whose model answers every call with [answer]. *)
Definition env (answer : result bytes) : Env :=
  {| Image_open := open;
     save_PNG := save;
     LANCZOS := blank;
     REMBG_AVAILABLE := true;
     remove := fun _ => answer |}.

Definition upload (ct : option string) (body : bytes) : App.UploadFile :=
  {| App.content_type := ct;
     App.filename := Some "upload"%string;
     App.read := inr body |}.

(** A body one byte over the limit. *)
Definition oversized : bytes := repeat x00 (N.to_nat 10485761).

(** A body exactly at the limit. *)
Definition at_limit : bytes := repeat x00 (N.to_nat 10485760).

(** Uploads whose read fails: with an I/O error, with an [HTTPException]
    of its own, and by the cancellation of the request. *)
Definition failing (err : App.error) : App.UploadFile :=
  {| App.content_type := Some "image/png"%string;
     App.filename := Some "upload"%string;
     App.read := inl err |}.

Definition unreadable : App.UploadFile :=
  failing (App.Other (Exn "OSError" "read failed")).

Definition teapot : App.UploadFile :=
  failing (App.HTTPException 418 "I'm a teapot").

Definition cancelled : App.UploadFile :=
  failing (App.BaseException (Exn "CancelledError" "cancelled")).

End Demo.

(* ===================================================================== *)
(** * Pillow's blend and the conversion to RGB *)
(* ===================================================================== *)

Section Blend.

(** [DIV255] is the division by 255 rounded to nearest, on the range a
    product of two bytes lives in. *)
Lemma DIV255_nearest (x : Z) :
  0 <= x <= 65025 ->
  - 127 <= 255 * PIL.DIV255 x - x <= 127.
Proof.
  intros Hx. unfold PIL.DIV255. cbv zeta.
  rewrite !Z.shiftr_div_pow2 by lia.
  change (2 ^ 8) with 256.
  pose proof (Z.div_mod (x + 128) 256 ltac:(lia)) as H1.
  pose proof (Z.mod_pos_bound (x + 128) 256 ltac:(lia)) as B1.
  set (q1 := (x + 128) / 256) in *.
  pose proof (Z.div_mod (q1 + (x + 128)) 256 ltac:(lia)) as H2.
  pose proof (Z.mod_pos_bound (q1 + (x + 128)) 256 ltac:(lia)) as B2.
  set (q2 := (q1 + (x + 128)) / 256) in *.
  lia.
Qed.

Lemma blend_range (a bg c : Z) :
  is_byte a -> is_byte bg -> is_byte c ->
  0 <= bg * (255 - a) + c * a <= 65025.
Proof. unfold is_byte. intros Ha Hb Hc. nia. Qed.

(** The blended band is the nearest byte to the convex combination of
    background and foreground with weight [a / 255]. *)
Lemma BLEND_nearest (a bg c : Z) :
  is_byte a -> is_byte bg -> is_byte c ->
  - 127 <= 255 * PIL.BLEND a bg c - (bg * (255 - a) + c * a) <= 127.
Proof.
  intros Ha Hb Hc. unfold PIL.BLEND.
  apply DIV255_nearest. now apply blend_range.
Qed.

Lemma BLEND_opaque (bg c : Z) :
  is_byte bg -> is_byte c -> PIL.BLEND 255 bg c = c.
Proof.
  intros Hb Hc.
  pose proof (BLEND_nearest 255 bg c ltac:(unfold is_byte; lia) Hb Hc).
  lia.
Qed.

Lemma BLEND_transparent (bg c : Z) :
  is_byte bg -> is_byte c -> PIL.BLEND 0 bg c = bg.
Proof.
  intros Hb Hc.
  pose proof (BLEND_nearest 0 bg c ltac:(unfold is_byte; lia) Hb Hc).
  lia.
Qed.

(** Pasting an RGBA raster through its own alpha band onto white is the
    composite of the specification, pixel by pixel. *)
Lemma paste_onto_white (d : list (Z * Z * Z * Z)) :
  PIL.paste_mask_L
    (repeat (255, 255, 255) (List.length d))
    (map (fun '(r, g, b, _) => (r, g, b)) d)
    (map (fun '(_, _, _, a) => a) d)
  = map Spec.over_white d.
Proof.
  induction d as [| [[[r g] b] a] d IH]; simpl.
  - reflexivity.
  - now rewrite IH.
Qed.

Lemma size_eqb_refl (sz : Z * Z) : PIL.size_eqb sz sz = true.
Proof. unfold PIL.size_eqb. now rewrite !Z.eqb_refl. Qed.

End Blend.

Section RgbStep.
Import ModelLoader.

Lemma rgb_step_RGB (image : PIL.Image) :
  PIL.mode image = "RGB"%string -> rgb_step image = inr image.
Proof. intros H. unfold rgb_step. now rewrite H. Qed.

Lemma rgb_step_RGBA (image : PIL.Image) :
  well_formed image ->
  PIL.mode image = "RGBA"%string ->
  rgb_step image = inr (Spec.composite_on_white image).
Proof.
  intros Hwf H. unfold rgb_step. rewrite H. cbn [String.eqb negb].
  destruct image as [sz r]. unfold PIL.mode in H. cbn in H.
  destruct r as [d|d|d|p d|d|d|k d|k d]; try discriminate H.
  unfold well_formed in Hwf. cbn in Hwf.
  cbn. rewrite !size_eqb_refl. cbn.
  unfold Spec.composite_on_white. cbn. unfold Py.ret.
  rewrite <- Hwf, paste_onto_white. reflexivity.
Qed.


End RgbStep.

(* ===================================================================== *)
(** * The upload handler *)
(* ===================================================================== *)

Section Handler.
Import App.

Lemma append_empty_r (s : string) : (s ++ "")%string = s.
Proof. induction s as [| c s IH]; simpl; [reflexivity | now rewrite IH]. Qed.

Lemma includes_suffix (pre s : string) : includes s (pre ++ s)%string.
Proof. exists pre, ""%string. now rewrite append_empty_r. Qed.

Lemma includes_middle (pre s post : string) :
  includes s (pre ++ s ++ post)%string.
Proof. now exists pre, post. Qed.

(** The test on the declared type, in words: no allowed type equals it. *)
Lemma not_in_allowed_true (ct : option string) :
  not_in_allowed ct = true <->
  ~ (exists s, ct = Some s /\ In s allowed_types).
Proof.
  unfold not_in_allowed. destruct ct as [s |].
  - rewrite negb_true_iff. split.
    + intros Hex [s' [Heq Hin]]. injection Heq as <-.
      assert (existsb (String.eqb s) allowed_types = true) as Habs.
      { apply existsb_exists. exists s. split; [exact Hin | apply String.eqb_refl]. }
      congruence.
    + intros Hno. destruct (existsb (String.eqb s) allowed_types) eqn:E;
        [| reflexivity].
      apply existsb_exists in E. destruct E as [x [Hin Hx]].
      apply String.eqb_eq in Hx. subst x.
      exfalso. apply Hno. now exists s.
  - split; [| reflexivity]. intros _ [s [Heq _]]. discriminate Heq.
Qed.

Lemma not_in_allowed_false (ct : option string) :
  not_in_allowed ct = false <-> exists s, ct = Some s /\ In s allowed_types.
Proof.
  unfold not_in_allowed. destruct ct as [s |].
  - rewrite negb_false_iff, existsb_exists. split.
    + intros [x [Hin Hx]]. apply String.eqb_eq in Hx. subst x. now exists s.
    + intros [s' [Heq Hin]]. injection Heq as <-.
      exists s. split; [exact Hin | apply String.eqb_refl].
  - split; [discriminate |]. intros [s [Heq _]]. discriminate Heq.
Qed.

(** Whatever the handler meets, a request it answers without being ready
    costs no call at all. *)
Lemma not_ready (env : Env) (file : UploadFile) (elapsed : string) :
  App.remove_background env None file elapsed
  = (inl (HTTPException 503
            "Background removal service is not available. Model not loaded."),
     []).
Proof. reflexivity. Qed.

Lemma bad_type (env : Env) remover (file : UploadFile) (elapsed : string) :
  not_in_allowed (content_type file) = true ->
  App.remove_background env (Some remover) file elapsed
  = (inl (HTTPException 400
            ("Invalid file type. Only JPG and PNG are supported. Got: "
               ++ Py.str_opt (content_type file))%string),
     []).
Proof. intros H. unfold App.remove_background. now rewrite H. Qed.

Lemma too_large (env : Env) remover (file : UploadFile) (elapsed : string)
      (image_data : Py.bytes) :
  not_in_allowed (content_type file) = false ->
  read file = inr image_data ->
  len image_data > 10485760 ->
  App.remove_background env (Some remover) file elapsed
  = (inl (HTTPException 400
            ("File too large. Maximum size is 10MB. Got: "
               ++ Py.str_int (len image_data) ++ " bytes")%string),
     [FileRead]).
Proof.
  intros Hct Hread Hlen. unfold App.remove_background.
  rewrite Hct, Hread. cbn [call hbind].
  change (10 * 1024 * 1024) with 10485760.
  destruct (len image_data >? 10485760) eqn:E.
  - reflexivity.
  - rewrite Z.gtb_ltb in E. apply Z.ltb_ge in E. lia.
Qed.

Lemma read_fails (env : Env) remover (file : UploadFile) (elapsed : string)
      (e : Py.exn) :
  not_in_allowed (content_type file) = false ->
  read file = inl (Other e) ->
  App.remove_background env (Some remover) file elapsed
  = (inl (HTTPException 500 ("Failed to process image: " ++ Py.str e)%string),
     [FileRead]).
Proof.
  intros Hct Hread. unfold App.remove_background.
  rewrite Hct, Hread. reflexivity.
Qed.

(** What the read raises that is no ordinary exception leaves the handler
    as it is: an [HTTPException] by the first [except] clause, anything
    outside [Exception] by neither. *)
Lemma read_raises_through (env : Env) remover (file : UploadFile)
      (elapsed : string) (err : error) :
  not_in_allowed (content_type file) = false ->
  read file = inl err ->
  (forall e, err <> Other e) ->
  App.remove_background env (Some remover) file elapsed = (inl err, [FileRead]).
Proof.
  intros Hct Hread Hno. unfold App.remove_background.
  rewrite Hct, Hread.
  destruct err as [s d | e | e]; [reflexivity | | reflexivity].
  now destruct (Hno e).
Qed.

Lemma processed (env : Env) remover (file : UploadFile) (elapsed : string)
      (image_data : Py.bytes) :
  not_in_allowed (content_type file) = false ->
  read file = inr image_data ->
  len image_data <= 10485760 ->
  App.remove_background env (Some remover) file elapsed
  = match ModelLoader.remove_background env remover image_data with
    | inl e =>
        (inl (HTTPException 500
                ("Failed to process image: " ++ Py.str e)%string),
         [FileRead; RemoveBackground image_data])
    | inr result_png =>
        (inr (Response result_png "image/png"
                [("Content-Disposition"%string,
                  ("attachment; filename=" ++ quoted "bgremoved.png")%string);
                 ("X-Processing-Time"%string, elapsed)]),
         [FileRead; RemoveBackground image_data])
    end.
Proof.
  intros Hct Hread Hlen. unfold App.remove_background.
  rewrite Hct, Hread. cbn [call hbind].
  change (10 * 1024 * 1024) with 10485760.
  destruct (len image_data >? 10485760) eqn:E.
  - apply Z.gtb_lt in E. lia.
  - destruct (ModelLoader.remove_background env remover image_data);
      reflexivity.
Qed.

(** The pipeline is called only after both validations have passed. *)
Lemma pipeline_called_only_when_valid
      (env : Env) (st : state) (file : UploadFile) (elapsed : string)
      (d : Py.bytes) :
  In (RemoveBackground d) (snd (App.remove_background env st file elapsed)) ->
  st <> None /\ not_in_allowed (content_type file) = false /\
  read file = inr d /\ len d <= 10485760.
Proof.
  destruct st as [remover |]; [| now rewrite not_ready].
  destruct (not_in_allowed (content_type file)) eqn:Hct.
  { now rewrite bad_type. }
  destruct (read file) as [[s msg | e | e] | data] eqn:Hread.
  { rewrite (read_raises_through _ _ _ _ _ Hct Hread) by discriminate.
    cbn. intros [H | []]. discriminate H. }
  { rewrite (read_fails _ _ _ _ e Hct Hread). cbn. intros [H | []]. discriminate H. }
  { rewrite (read_raises_through _ _ _ _ _ Hct Hread) by discriminate.
    cbn. intros [H | []]. discriminate H. }
  destruct (Z_gt_le_dec (len data) 10485760) as [Hbig | Hsmall].
  { rewrite (too_large _ _ _ _ data Hct Hread Hbig). cbn.
    intros [H | []]. discriminate H. }
  rewrite (processed _ _ _ _ data Hct Hread Hsmall).
  destruct (ModelLoader.remove_background env remover data); cbn;
    intros [H | [H | []]]; try discriminate H;
    injection H as <-; repeat split; congruence || assumption.
Qed.

End Handler.

(* ===================================================================== *)
(** * The pipeline *)
(* ===================================================================== *)

Section Pipeline.
Import ModelLoader.
Variable env : Env.

Lemma resize_step_small (image : PIL.Image) :
  longer_side image <= 2048 -> resize_step env image = inr image.
Proof.
  intros H. unfold resize_step, longer_side, max_size in *.
  destruct (Z.max _ _ >? 2048) eqn:E; [| reflexivity].
  apply Z.gtb_lt in E. lia.
Qed.

Lemma resize_step_large (image : PIL.Image) :
  2048 < longer_side image ->
  resize_step env image
  = Py.bind (new_size (PIL.size image)) (PIL.resize (LANCZOS env) image).
Proof.
  intros H. unfold resize_step, longer_side, max_size in *.
  destruct (Z.max _ _ >? 2048) eqn:E; [reflexivity |].
  rewrite Z.gtb_ltb in E. apply Z.ltb_ge in E. lia.
Qed.

(** Pillow's resize succeeds exactly on a target with two positive sides. *)
Lemma resize_succeeds_iff (image : PIL.Image) (sz : Z * Z) :
  (exists out, PIL.resize (LANCZOS env) image sz = inr out)
  <-> 1 <= fst sz /\ 1 <= snd sz.
Proof.
  unfold PIL.resize.
  destruct (fst sz <? 1) eqn:Ew; destruct (snd sz <? 1) eqn:Eh; cbn;
    try apply Z.ltb_lt in Ew; try apply Z.ltb_ge in Ew;
    try apply Z.ltb_lt in Eh; try apply Z.ltb_ge in Eh;
    (split; [intros [out H]; try discriminate H; lia
            | intros [H1 H2]; try lia; eexists; reflexivity]).
Qed.

Lemma rgba_step_returns (output_bytes : Py.bytes) (out : PIL.Image) :
  rgba_step env output_bytes = inr out ->
  exists model_image,
    Image_open env output_bytes = inr model_image /\
    out = as_RGBA model_image.
Proof.
  unfold rgba_step, Py.bind.
  destruct (Image_open env output_bytes) as [e | [sz r]]; [discriminate |].
  intros H. exists {| PIL.size := sz; PIL.im := r |}. split; [reflexivity |].
  destruct r; cbn in H; injection H as <-; reflexivity.
Qed.

Lemma segment_returns (image : PIL.Image) (out : Py.bytes) :
  segment env image = inr out ->
  exists model_bytes model_image,
    remove env (save_PNG env image) = inr model_bytes /\
    Image_open env model_bytes = inr model_image /\
    out = save_PNG env (as_RGBA model_image).
Proof.
  unfold segment. cbv zeta. unfold Py.bind at 1.
  destruct (remove env (save_PNG env image)) as [e | model_bytes];
    [discriminate |].
  unfold Py.bind.
  destruct (rgba_step env model_bytes) as [e | rgba] eqn:E; [discriminate |].
  intros H. injection H as <-.
  apply rgba_step_returns in E. destruct E as [model_image [Hopen ->]].
  now exists model_bytes, model_image.
Qed.

Lemma remove_background_returns self (image_data out : Py.bytes) :
  remove_background env self image_data = inr out ->
  exists image,
    normalize env image_data = inr image /\ segment env image = inr out.
Proof.
  unfold remove_background, Py.try_except, Py.bind.
  destruct (normalize env image_data) as [e | image]; [discriminate |].
  destruct (segment env image) as [e | out'] eqn:E; [discriminate |].
  intros H. injection H as <-. now exists image.
Qed.

(** Every failure of the method is a [RuntimeError] quoting the failure
    underneath. *)
Lemma remove_background_raises self (image_data : Py.bytes) (e : Py.exn) :
  remove_background env self image_data = inl e ->
  exists cause,
    Py.bind (normalize env image_data) (segment env) = inl cause /\
    e = Py.RuntimeError ("Failed to remove background: " ++ Py.str cause)%string.
Proof.
  unfold remove_background, Py.try_except.
  destruct (Py.bind (normalize env image_data) (fun image => segment env image))
    as [cause | out] eqn:E.
  - intros H. injection H as <-. exists cause. split; reflexivity.
  - discriminate.
Qed.

Lemma normalize_raises_through self (image_data : Py.bytes) (cause : Py.exn) :
  normalize env image_data = inl cause ->
  remove_background env self image_data
  = inl (Py.RuntimeError
           ("Failed to remove background: " ++ Py.str cause)%string).
Proof.
  intros H. unfold remove_background, Py.try_except, Py.bind.
  now rewrite H.
Qed.

(** A palette without transparency has opaque entries only, the one
    Pillow reads for an index beyond it included. *)
Lemma palette_entry_opaque (palette : list (Z * Z * Z * Z)) (i : Z) :
  existsb (fun '(_, _, _, a) => negb (a =? 255)) palette = false ->
  snd (PIL.palette_entry palette i) = 255.
Proof.
  intros H. unfold PIL.palette_entry.
  destruct (nth_in_or_default (Z.to_nat i) palette (0, 0, 0, 255))
    as [Hnth | ->]; [| reflexivity].
  destruct (nth (Z.to_nat i) palette (0, 0, 0, 255)) as [[[r g] b] a] eqn:En.
  cbn.
  destruct (a =? 255) eqn:Ea; [now apply Z.eqb_eq in Ea |].
  assert (existsb (fun '(_, _, _, a0) => negb (a0 =? 255)) palette = true)
    as Habs.
  { apply existsb_exists. exists (r, g, b, a). split; [exact Hnth |].
    now rewrite Ea. }
  congruence.
Qed.

(** Made RGBA, a raster keeps its colours. *)
Lemma to_RGBA_colours (r : PIL.raster) :
  map fst (PIL.to_RGBA r) = PIL.to_RGB r.
Proof.
  destruct r as [d | d | d | palette d | d | d | k d | k d];
    cbn [PIL.to_RGB PIL.to_RGBA]; try rewrite map_map.
  - reflexivity.
  - reflexivity.
  - apply map_ext. intros [v a]. reflexivity.
  - apply map_ext. intros i.
    destruct (PIL.palette_entry palette i) as [[[r g] b] a]. reflexivity.
  - rewrite <- (map_id d) at 2. apply map_ext. intros [[r g] b]. reflexivity.
  - apply map_ext. intros [[[r g] b] a]. reflexivity.
  - reflexivity.
  - rewrite <- (map_id d) at 2. apply map_ext. intros c. reflexivity.
Qed.

(** A raster with neither transparency nor a colour key becomes opaque
    when made RGBA. *)
Lemma to_RGBA_opaque (r : PIL.raster) :
  Spec.has_transparency r = false ->
  PIL.colour_key r = None ->
  PIL.to_RGBA r = map (fun c => (c, 255)) (PIL.to_RGB r).
Proof.
  destruct r as [d | d | d | palette d | d | d | k d | k d]; cbn;
    try discriminate; intros H _; try rewrite map_map.
  - reflexivity.
  - reflexivity.
  - apply map_ext. intros i.
    pose proof (palette_entry_opaque palette i H) as Ha.
    destruct (PIL.palette_entry palette i) as [[[r g] b] a].
    cbn in Ha. now rewrite Ha.
  - apply map_ext. intros [[r g] b]. reflexivity.
Qed.

(** With a colour key, exactly the pixels of the key colour become
    transparent. *)
Lemma to_RGBA_keyed (r : PIL.raster) (key : Z * Z * Z) :
  PIL.colour_key r = Some key ->
  PIL.to_RGBA r = map (PIL.keyed key) (PIL.to_RGB r).
Proof.
  destruct r as [d | d | d | palette d | d | d | k d | k d]; cbn;
    try discriminate; intros H; injection H as <-.
  - now rewrite map_map.
  - reflexivity.
Qed.

Lemma rgb_eqb_eq (a b : Z * Z * Z) : PIL.rgb_eqb a b = true <-> a = b.
Proof.
  destruct a as [[r1 g1] b1], b as [[r2 g2] b2]. unfold PIL.rgb_eqb.
  rewrite !andb_true_iff, !Z.eqb_eq. split.
  - intros [[-> ->] ->]. reflexivity.
  - intros H. injection H as -> -> ->. repeat split.
Qed.

(** The alpha of a keyed pixel: 0 on the key colour, 255 off it. *)
Lemma keyed_alpha (key c : Z * Z * Z) :
  (c = key -> PIL.keyed key c = (c, 0)) /\
  (c <> key -> PIL.keyed key c = (c, 255)).
Proof.
  unfold PIL.keyed. destruct (PIL.rgb_eqb c key) eqn:E.
  - apply rgb_eqb_eq in E. split; [reflexivity | contradiction].
  - split; [| reflexivity]. intros ->.
    assert (PIL.rgb_eqb key key = true) as H by now apply rgb_eqb_eq.
    congruence.
Qed.

End Pipeline.

(* ===================================================================== *)
(** * The small environment keeps the contracts *)
(* ===================================================================== *)

Section DemoFacts.
Import Demo.

Lemma dec_enc_nat (n : nat) (rest : Py.bytes) :
  dec_nat (enc_nat n ++ rest) = Some (n, rest).
Proof.
  unfold enc_nat. induction n as [| n IH]; simpl.
  - reflexivity.
  - now rewrite IH.
Qed.

Lemma dec_enc_Z (z : Z) (rest : Py.bytes) :
  dec_Z (enc_Z z ++ rest) = Some (z, rest).
Proof.
  unfold enc_Z, dec_Z.
  destruct (z <? 0) eqn:E; simpl; rewrite dec_enc_nat; do 2 f_equal.
  - apply Z.ltb_lt in E. lia.
  - apply Z.ltb_ge in E. lia.
Qed.

Lemma dec_enc_pixel (p : Z * Z * Z * Z) (rest : Py.bytes) :
  dec_pixel (enc_pixel p ++ rest) = Some (p, rest).
Proof.
  destruct p as [[[r g] b] a]. unfold enc_pixel, dec_pixel.
  rewrite <- !app_assoc.
  now rewrite !dec_enc_Z.
Qed.

Lemma dec_enc_pixels (d : list (Z * Z * Z * Z)) (rest : Py.bytes) :
  dec_pixels (List.length d) (enc_pixels d ++ rest) = Some (d, rest).
Proof.
  induction d as [| p d IH]; simpl.
  - reflexivity.
  - now rewrite <- app_assoc, dec_enc_pixel, IH.
Qed.

Lemma dec_enc_rgba (sz : Z * Z) (d : list (Z * Z * Z * Z)) :
  dec_rgba (enc_rgba sz d)
  = Some {| PIL.size := sz; PIL.im := PIL.ModeRGBA d |}.
Proof.
  unfold enc_rgba, dec_rgba.
  rewrite !dec_enc_Z, dec_enc_nat.
  rewrite <- (app_nil_r (enc_pixels d)), dec_enc_pixels.
  now destruct sz.
Qed.

Lemma demo_png_lossless (answer : Py.result Py.bytes) :
  png_lossless (Demo.env answer).
Proof.
  intros [sz r] Hmode. unfold PIL.mode in Hmode. cbn in Hmode.
  destruct r as [d | d | d | palette d | d | d | k d | k d];
    try discriminate Hmode.
  change (Demo.open (Demo.save {| PIL.size := sz; PIL.im := PIL.ModeRGBA d |})
          = inr {| PIL.size := sz; PIL.im := PIL.ModeRGBA d |}).
  unfold Demo.save. cbn [PIL.im PIL.size]. unfold Demo.open.
  now rewrite dec_enc_rgba.
Qed.

Lemma demo_resample_keeps_mode (answer : Py.result Py.bytes) :
  resample_keeps_mode (Demo.env answer).
Proof. intros [sz r] sz'. now destruct r. Qed.

Lemma oversized_len : App.len Demo.oversized = 10485761.
Proof.
  unfold App.len, Demo.oversized. rewrite repeat_length. lia.
Qed.

End DemoFacts.

(* ===================================================================== *)
(** * Binary64 arithmetic of the target size *)
(* ===================================================================== *)

(** The first rounding of [binary_round_aux] keeps the integer part of the
    shifted mantissa or adds one to it, whatever the location says; that
    alone bounds the error of a division and of a product by one unit in
    the last place, which is all the target size needs. *)
Section Floats.
Import Py.

Lemma digits2_pos_bounds (p : positive) :
  2 ^ (Zpos (digits2_pos p) - 1) <= Zpos p < 2 ^ Zpos (digits2_pos p).
Proof.
  induction p as [p IH | p IH |]; cbn [digits2_pos].
  - rewrite Pos2Z.inj_succ.
    replace (Z.succ (Zpos (digits2_pos p)) - 1) with (Z.succ (Zpos (digits2_pos p) - 1)) by lia.
    rewrite !Z.pow_succ_r by lia. lia.
  - rewrite Pos2Z.inj_succ.
    replace (Z.succ (Zpos (digits2_pos p)) - 1) with (Z.succ (Zpos (digits2_pos p) - 1)) by lia.
    rewrite !Z.pow_succ_r by lia. lia.
  - cbn. lia.
Qed.

Lemma Zdigits2_unique (n d : Z) :
  2 ^ (d - 1) <= n < 2 ^ d -> 0 < n -> 0 < d -> Zdigits2 n = d.
Proof.
  intros [Hlo Hhi] Hn Hd.
  destruct n as [| p | p]; try lia.
  cbn [Zdigits2].
  pose proof (digits2_pos_bounds p) as [Blo Bhi].
  set (d' := Zpos (digits2_pos p)) in *.
  assert (d' - 1 < d) by (apply (Z.pow_lt_mono_r_iff 2); lia).
  assert (d - 1 < d') by (apply (Z.pow_lt_mono_r_iff 2); lia).
  lia.
Qed.

Lemma shr_1_m (mrs : shr_record) :
  0 <= shr_m mrs -> shr_m (shr_1 mrs) = shr_m mrs / 2 /\ 0 <= shr_m (shr_1 mrs).
Proof.
  destruct mrs as [m r s]. cbn [shr_m]. intros Hm.
  destruct m as [| [p | p |] | p]; cbn [shr_1 shr_m].
  - split; [reflexivity | lia].
  - split; [| lia]. apply Z.div_unique with 1; lia.
  - split; [| lia]. apply Z.div_unique with 0; lia.
  - split; [reflexivity | lia].
  - lia.
Qed.

Lemma iter_shr_1_m (n : positive) :
  forall mrs, 0 <= shr_m mrs ->
    shr_m (iter_pos shr_1 n mrs) = shr_m mrs / 2 ^ Zpos n /\
    0 <= shr_m (iter_pos shr_1 n mrs).
Proof.
  induction n as [n IH | n IH |]; intros mrs Hm; cbn [iter_pos];
    try assert (0 < 2 ^ Zpos n) as Hpow by (apply Z.pow_pos_nonneg; lia).
  - destruct (shr_1_m mrs Hm) as [E1 P1].
    destruct (IH _ P1) as [E2 P2].
    destruct (IH _ P2) as [E3 P3].
    split; [| exact P3].
    rewrite E3, E2, E1.
    rewrite !Z.div_div by lia.
    f_equal. rewrite <- Z.pow_add_r by lia.
    rewrite <- (Z.pow_succ_r 2) by lia. f_equal. lia.
  - destruct (IH _ Hm) as [E2 P2].
    destruct (IH _ P2) as [E3 P3].
    split; [| exact P3].
    rewrite E3, E2.
    rewrite !Z.div_div by lia.
    f_equal. rewrite <- Z.pow_add_r by lia. f_equal. lia.
  - destruct (shr_1_m mrs Hm) as [E1 P1]. split; [| exact P1].
    rewrite E1. reflexivity.
Qed.

Lemma shr_m_of_loc (m : Z) (l : location) : shr_m (shr_record_of_loc m l) = m.
Proof. destruct l as [| []]; reflexivity. Qed.

(** shifting by n >= 0 *)
Lemma shr_m_shift (mrs : shr_record) (e n : Z) :
  0 <= shr_m mrs -> 0 <= n ->
  shr_m (fst (shr mrs e n)) = shr_m mrs / 2 ^ n /\ snd (shr mrs e n) = e + n.
Proof.
  intros Hm Hn. destruct n as [| p | p]; try lia; cbn [shr fst snd].
  - rewrite Z.pow_0_r, Z.div_1_r. split; [reflexivity | lia].
  - split; [| reflexivity]. apply iter_shr_1_m, Hm.
Qed.

Lemma round_nearest_even_cases (m : Z) (l : location) :
  round_nearest_even m l = m \/ round_nearest_even m l = m + 1.
Proof.
  destruct l as [| []]; cbn [round_nearest_even]; auto.
  destruct (Z.even m); auto.
Qed.

Lemma pow2_pos (k : Z) : 0 <= k -> 0 < 2 ^ k.
Proof. intros. apply Z.pow_pos_nonneg; lia. Qed.

Lemma pow2_split (a b : Z) : 0 <= a -> 0 <= b -> 2 ^ (a + b) = 2 ^ a * 2 ^ b.
Proof. intros. apply Z.pow_add_r; lia. Qed.

(** Dividing a [d]-digit number by [2 ^ (d - 53)] leaves 53 digits. *)
Lemma truncated_mantissa (mx d : Z) :
  53 <= d -> 2 ^ (d - 1) <= mx < 2 ^ d ->
  let m1 := mx / 2 ^ (d - 53) in
  2 ^ 52 <= m1 < 2 ^ 53 /\
  m1 * 2 ^ (d - 53) <= mx < (m1 + 1) * 2 ^ (d - 53).
Proof.
  intros Hd [Hlo Hhi] m1.
  pose proof (pow2_pos (d - 53) ltac:(lia)) as Hk.
  assert (2 ^ (d - 1) = 2 ^ 52 * 2 ^ (d - 53)) as E1.
  { rewrite <- pow2_split by lia. f_equal. lia. }
  assert (2 ^ d = 2 ^ 53 * 2 ^ (d - 53)) as E2.
  { rewrite <- pow2_split by lia. f_equal. lia. }
  pose proof (Z.div_mod mx (2 ^ (d - 53)) ltac:(lia)) as Hdm.
  pose proof (Z.mod_pos_bound mx (2 ^ (d - 53)) Hk) as Hmod.
  fold m1 in Hdm.
  split; [| lia].
  split.
  - apply Z.div_le_lower_bound; lia.
  - apply Z.div_lt_upper_bound; lia.
Qed.

Lemma binary_round_aux_faithful (mx ex : Z) (lx : location) (d : Z) :
  53 <= d -> 2 ^ (d - 1) <= mx < 2 ^ d ->
  -1074 <= ex + d - 53 -> ex + d - 52 <= 971 ->
  exists m e,
    binary_round_aux prec emax false mx ex lx = S754_finite false m e /\
    2 ^ 52 <= Zpos m < 2 ^ 53 /\
    ex + d - 53 <= e <= ex + d - 52 /\
    mx - 2 ^ (d - 53) < Zpos m * 2 ^ (e - ex) <= mx + 2 ^ (d - 53).
Proof.
  intros Hd Hmx Hlo Hhi.
  pose proof (pow2_pos (d - 53) ltac:(lia)) as Hk.
  assert (0 < mx) as Hpos.
  { pose proof (pow2_pos (d - 1) ltac:(lia)). lia. }
  destruct (truncated_mantissa mx d Hd Hmx) as [Hm1 Hq].
  set (m1 := mx / 2 ^ (d - 53)) in *.
  unfold binary_round_aux, shr_fexp.
  rewrite (Zdigits2_unique mx d Hmx Hpos ltac:(lia)).
  assert (fexp prec emax (d + ex) - ex = d - 53) as ->.
  { unfold fexp, emin, prec, emax. lia. }
  destruct (shr_m_shift (shr_record_of_loc mx lx) ex (d - 53)) as [Em Ee].
  { rewrite shr_m_of_loc. lia. }
  { lia. }
  rewrite shr_m_of_loc in Em. fold m1 in Em.
  destruct (shr (shr_record_of_loc mx lx) ex (d - 53)) as [mrs' e'].
  cbn [fst snd] in Em, Ee. subst e'.
  rewrite Em.
  set (m2 := round_nearest_even m1 (loc_of_shr_record mrs')).
  assert (m2 = m1 \/ m2 = m1 + 1) as Hm2 by apply round_nearest_even_cases.
  destruct (Z_lt_le_dec m2 (2 ^ 53)) as [Hsmall | Hbig].
  - (* no carry *)
    rewrite (Zdigits2_unique m2 53 ltac:(change (2 ^ (53 - 1)) with (2 ^ 52); lia)
               ltac:(change (2 ^ 52) with 4503599627370496 in *; lia) ltac:(lia)).
    assert (fexp prec emax (53 + (ex + (d - 53))) - (ex + (d - 53)) = 0) as ->.
    { unfold fexp, emin, prec, emax. lia. }
    cbn [shr shr_record_of_loc shr_m].
    destruct m2 as [| p | p] eqn:Ep;
      try (change (2 ^ 52) with 4503599627370496 in *; lia).
    assert ((ex + (d - 53) <=? emax - prec) = true) as ->.
    { apply Z.leb_le. unfold emax, prec. lia. }
    exists p, (ex + (d - 53)).
    split; [reflexivity |].
    split; [lia |]. split; [lia |].
    replace (ex + (d - 53) - ex) with (d - 53) by lia.
    destruct Hm2 as [-> | ->]; lia.
  - (* the rounded mantissa is 2 ^ 53 *)
    assert (m2 = 2 ^ 53) as E53 by lia.
    rewrite E53.
    rewrite (Zdigits2_unique (2 ^ 53) 54 ltac:(cbn; lia) ltac:(cbn; lia) ltac:(lia)).
    assert (fexp prec emax (54 + (ex + (d - 53))) - (ex + (d - 53)) = 1) as ->.
    { unfold fexp, emin, prec, emax. lia. }
    change (2 ^ 53) with 9007199254740992.
    cbn [shr shr_record_of_loc iter_pos shr_1 shr_m].
    assert ((ex + (d - 53) + 1 <=? emax - prec) = true) as ->.
    { apply Z.leb_le. unfold emax, prec. lia. }
    eexists _, (ex + (d - 53) + 1).
    split; [reflexivity |].
    split; [cbn; lia |]. split; [lia |].
    replace (ex + (d - 53) + 1 - ex) with (1 + (d - 53)) by lia.
    rewrite pow2_split by lia. change (2 ^ 1) with 2.
    change (2 ^ 53) with 9007199254740992 in *.
    destruct Hm2 as [E | E]; rewrite E in E53; lia.
Qed.

Lemma binary_round_aux_exact (mx ex : Z) :
  2 ^ 52 <= mx < 2 ^ 53 -> -1074 <= ex <= 971 ->
  binary_round_aux prec emax false mx ex loc_Exact
  = S754_finite false (Z.to_pos mx) ex.
Proof.
  intros Hmx He.
  change (2 ^ 52) with 4503599627370496 in Hmx.
  unfold binary_round_aux, shr_fexp.
  rewrite (Zdigits2_unique mx 53 Hmx ltac:(lia) ltac:(lia)).
  assert (fexp prec emax (53 + ex) - ex = 0) as ->.
  { unfold fexp, emin, prec, emax. lia. }
  cbn [shr shr_record_of_loc shr_m loc_of_shr_record round_nearest_even].
  rewrite (Zdigits2_unique mx 53 Hmx ltac:(lia) ltac:(lia)).
  assert (fexp prec emax (53 + ex) - ex = 0) as ->.
  { unfold fexp, emin, prec, emax. lia. }
  cbn [shr shr_record_of_loc shr_m].
  destruct mx as [| p | p]; try lia.
  assert ((ex <=? emax - prec) = true) as ->.
  { apply Z.leb_le. unfold emax, prec. lia. }
  reflexivity.
Qed.

Lemma iter_xO (p k : positive) :
  Zpos (Pos.iter xO p k) = Zpos p * 2 ^ Zpos k.
Proof.
  induction k as [| k IH] using Pos.peano_ind.
  - cbn. lia.
  - rewrite Pos.iter_succ, Pos2Z.inj_xO, IH, Pos2Z.inj_succ.
    rewrite Z.pow_succ_r by lia. lia.
Qed.

(** The float of a positive int of [d <= 52] digits: its mantissa is the
    int shifted to 53 digits. *)
Lemma binary_normalize_int (n d : Z) :
  1 <= d <= 52 -> 2 ^ (d - 1) <= n < 2 ^ d ->
  binary_normalize prec emax n 0 false
  = S754_finite false (Z.to_pos (n * 2 ^ (53 - d))) (d - 53).
Proof.
  intros Hd Hn.
  assert (0 < n) as Hpos.
  { pose proof (pow2_pos (d - 1) ltac:(lia)). lia. }
  pose proof (Zdigits2_unique n d Hn Hpos ltac:(lia)) as Hdig.
  destruct n as [| p | p]; try lia.
  cbn [binary_normalize]. unfold binary_round.
  cbn [Zdigits2] in Hdig. rewrite Hdig.
  assert (fexp prec emax (d + 0) = d - 53) as ->.
  { unfold fexp, emin, prec, emax. lia. }
  unfold shl_align.
  destruct (d - 53 - 0) as [| k | k] eqn:Ek; try lia.
  pose proof (iter_xO p k) as Hit.
  assert (Zpos k = 53 - d) as Hk by lia.
  rewrite Hk in Hit.
  rewrite binary_round_aux_exact.
  - rewrite Hit. reflexivity.
  - rewrite Hit.
    assert (2 ^ 52 = 2 ^ (d - 1) * 2 ^ (53 - d)) as ->.
    { rewrite <- pow2_split by lia. f_equal. lia. }
    assert (2 ^ 53 = 2 ^ d * 2 ^ (53 - d)) as ->.
    { rewrite <- pow2_split by lia. f_equal. lia. }
    pose proof (pow2_pos (53 - d) ltac:(lia)). nia.
  - lia.
Qed.

Ltac pow_consts :=
  change (2 ^ 52) with 4503599627370496 in *;
  change (2 ^ 53) with 9007199254740992 in *;
  change (2 ^ 104) with 20282409603651670423947251286016 in *;
  change (2 ^ 105) with 40564819207303340847894502572032 in *;
  change (2 ^ 106) with 81129638414606681695789005144064 in *.

Lemma SFdiv_2048 (my : positive) (ey : Z) :
  2 ^ 52 <= Zpos my < 2 ^ 53 -> -60 <= ey <= -1 ->
  exists mr er,
    SFdiv prec emax (S754_finite false 4503599627370496 (-41))
                    (S754_finite false my ey)
    = S754_finite false mr er /\
    2 ^ 52 <= Zpos mr < 2 ^ 53 /\
    0 <= er - (-94 - ey) <= 2 /\
    2 ^ 105 - 3 * Zpos my < (Zpos mr * 2 ^ (er - (-94 - ey))) * Zpos my
      <= 2 ^ 105 + 2 * Zpos my.
Proof.
  intros Hmy Hey.
  unfold SFdiv, SFdiv_core_binary. cbv zeta. cbn [xorb].
  change (Zdigits2 (Zpos 4503599627370496)) with 53.
  rewrite (Zdigits2_unique (Zpos my) 53 Hmy ltac:(lia) ltac:(lia)).
  match goal with
  | |- context [Z.min ?a ?b] =>
      replace (Z.min a b) with (-94 - ey)
        by (unfold fexp, emin, prec, emax; lia)
  end.
  replace (-41 - ey - (-94 - ey)) with 53 by lia.
  change (IntDef.Z.shiftl 4503599627370496 53) with (2 ^ 105).
  pose proof (Z_div_mod (2 ^ 105) (Zpos my) ltac:(lia)) as Hdm.
  change (IntDef.Z.div_eucl (2 ^ 105) (Zpos my))
    with (Z.div_eucl (2 ^ 105) (Zpos my)).
  destruct (Z.div_eucl (2 ^ 105) (Zpos my)) as [q r].
  destruct Hdm as [Hq Hr].
  assert (q = 2 ^ 105 / Zpos my) as Eq.
  { apply Z.div_unique with r; [left; exact Hr | exact Hq]. }
  assert (2 ^ 52 <= q <= 2 ^ 53) as Hqb.
  { rewrite Eq. pow_consts. split.
    - apply Z.div_le_lower_bound; lia.
    - apply Z.div_le_upper_bound; lia. }
  clear Eq.
  destruct (Z_lt_le_dec q (2 ^ 53)) as [Hlt | Hge].
  - destruct (binary_round_aux_faithful q (-94 - ey) (new_location (Zpos my) r) 53)
      as [mr [er [E [Hmr [Her Hval]]]]]; try lia.
    exists mr, er. split; [exact E |]. split; [exact Hmr |].
    change (2 ^ (53 - 53)) with 1 in Hval.
    split; [lia |].
    set (R := Zpos mr * 2 ^ (er - (-94 - ey))) in *. pow_consts. nia.
  - destruct (binary_round_aux_faithful q (-94 - ey) (new_location (Zpos my) r) 54)
      as [mr [er [E [Hmr [Her Hval]]]]]; try lia.
    exists mr, er. split; [exact E |]. split; [exact Hmr |].
    change (2 ^ (54 - 53)) with 2 in Hval.
    split; [lia |].
    set (R := Zpos mr * 2 ^ (er - (-94 - ey))) in *. pow_consts. nia.
Qed.

Lemma SFmul_faithful (mw mr : positive) (ew er : Z) :
  2 ^ 52 <= Zpos mw < 2 ^ 53 -> 2 ^ 52 <= Zpos mr < 2 ^ 53 ->
  -1074 <= ew + er + 52 -> ew + er + 54 <= 971 ->
  exists mp ep,
    SFmul prec emax (S754_finite false mw ew) (S754_finite false mr er)
    = S754_finite false mp ep /\
    2 ^ 52 <= Zpos mp < 2 ^ 53 /\
    ew + er + 52 <= ep <= ew + er + 54 /\
    Zpos mw * Zpos mr - 2 ^ 53 < Zpos mp * 2 ^ (ep - (ew + er))
      <= Zpos mw * Zpos mr + 2 ^ 53.
Proof.
  intros Hmw Hmr Hlo Hhi.
  unfold SFmul. cbn [xorb]. rewrite Pos2Z.inj_mul.
  set (P := Zpos mw * Zpos mr).
  assert (2 ^ 104 <= P < 2 ^ 106) as HP.
  { unfold P. pow_consts. nia. }
  destruct (Z_lt_le_dec P (2 ^ 105)) as [Hlt | Hge].
  - assert (2 ^ (105 - 1) <= P < 2 ^ 105) as Hb.
    { change (2 ^ (105 - 1)) with (2 ^ 104). lia. }
    destruct (binary_round_aux_faithful P (ew + er) loc_Exact 105
                ltac:(lia) Hb ltac:(lia) ltac:(lia))
      as [mp [ep [E [Hmp [Hep Hval]]]]].
    exists mp, ep. split; [exact E |]. split; [exact Hmp |].
    split; [lia |].
    change (2 ^ (105 - 53)) with (2 ^ 52) in Hval. pow_consts. lia.
  - assert (2 ^ (106 - 1) <= P < 2 ^ 106) as Hb.
    { change (2 ^ (106 - 1)) with (2 ^ 105). lia. }
    destruct (binary_round_aux_faithful P (ew + er) loc_Exact 106
                ltac:(lia) Hb ltac:(lia) ltac:(lia))
      as [mp [ep [E [Hmp [Hep Hval]]]]].
    exists mp, ep. split; [exact E |]. split; [exact Hmp |].
    split; [lia |].
    change (2 ^ (106 - 53)) with (2 ^ 53) in Hval. lia.
Qed.

Lemma float_of_int_small (n d : Z) :
  1 <= d <= 52 -> 2 ^ (d - 1) <= n < 2 ^ d ->
  exists mn,
    float_of_int n = inr (S754_finite false mn (d - 53)) /\
    Zpos mn = n * 2 ^ (53 - d) /\
    2 ^ 52 <= Zpos mn < 2 ^ 53.
Proof.
  intros Hd Hn.
  pose proof (pow2_pos (d - 1) ltac:(lia)) as Hp1.
  pose proof (pow2_pos (53 - d) ltac:(lia)) as Hp2.
  exists (Z.to_pos (n * 2 ^ (53 - d))).
  unfold float_of_int. rewrite (binary_normalize_int n d Hd Hn).
  split; [reflexivity |].
  assert (0 < n * 2 ^ (53 - d)) as Hpos by nia.
  rewrite Z2Pos.id by exact Hpos.
  split; [reflexivity |].
  assert (2 ^ 52 = 2 ^ (d - 1) * 2 ^ (53 - d)) as ->.
  { rewrite <- pow2_split by lia. f_equal. lia. }
  assert (2 ^ 53 = 2 ^ d * 2 ^ (53 - d)) as ->.
  { rewrite <- pow2_split by lia. f_equal. lia. }
  nia.
Qed.

(** The quotient 2048 / m as a float: [R = mr * 2 ^ (er + 41 + dm)] is
    within three units of [2 ^ (52 + dm) / m]. *)
Lemma truediv_2048 (m dm : Z) :
  12 <= dm <= 31 -> 2 ^ (dm - 1) <= m < 2 ^ dm ->
  exists mr er,
    truediv 2048 m = inr (S754_finite false mr er) /\
    2 ^ 52 <= Zpos mr < 2 ^ 53 /\
    0 <= er + 41 + dm <= 2 /\
    2 ^ (52 + dm) - 3 * m < (Zpos mr * 2 ^ (er + 41 + dm)) * m
      <= 2 ^ (52 + dm) + 2 * m.
Proof.
  intros Hd Hm.
  pose proof (pow2_pos (dm - 1) ltac:(lia)) as Hp1.
  pose proof (pow2_pos (53 - dm) ltac:(lia)) as Hs.
  destruct (float_of_int_small m dm ltac:(lia) Hm) as [my [Ey [Vy By]]].
  destruct (SFdiv_2048 my (dm - 53) By ltac:(lia))
    as [mr [er [E [Hmr [Her Hval]]]]].
  exists mr, er.
  split.
  { unfold truediv.
    replace (m =? 0) with false by (symmetry; apply Z.eqb_neq; lia).
    change (float_of_int 2048)
      with (@inr exn _ (S754_finite false 4503599627370496 (-41))).
    cbn [bind]. rewrite Ey. cbn [bind]. unfold ret. now rewrite E. }
  split; [exact Hmr |].
  replace (er - (-94 - (dm - 53))) with (er + 41 + dm) in * by lia.
  split; [lia |].
  set (R := Zpos mr * 2 ^ (er + 41 + dm)) in *.
  rewrite Vy in Hval.
  assert (2 ^ 105 = 2 ^ (52 + dm) * 2 ^ (53 - dm)) as E105.
  { rewrite <- pow2_split by lia. f_equal. lia. }
  rewrite E105 in Hval.
  set (s := 2 ^ (53 - dm)) in *. set (g := 2 ^ (52 + dm)) in *.
  split.
  - apply (Z.mul_lt_mono_pos_r s); [exact Hs |]. lia.
  - apply (Z.mul_le_mono_pos_r _ _ s); [exact Hs |]. lia.
Qed.

Lemma scaled_side (w m dw dm : Z) (mr : positive) (er : Z) :
  1 <= dw <= 31 -> 2 ^ (dw - 1) <= w < 2 ^ dw ->
  12 <= dm <= 31 -> 2 ^ (dm - 1) <= m < 2 ^ dm ->
  2 ^ 52 <= Zpos mr < 2 ^ 53 ->
  0 <= er + 41 + dm <= 2 ->
  2 ^ (52 + dm) - 3 * m < (Zpos mr * 2 ^ (er + 41 + dm)) * m
    <= 2 ^ (52 + dm) + 2 * m ->
  exists t,
    bind (mul_int_float w (S754_finite false mr er)) int = inr t /\
    t * m <= 2048 * w <= (t + 1) * m.
Proof.
  intros Hdw Hw Hdm Hm Hmr Ha Hdiv.
  destruct (float_of_int_small w dw ltac:(lia) Hw) as [mw [Ew [Vw Bw]]].
  destruct (SFmul_faithful mw mr (dw - 53) er Bw Hmr ltac:(lia) ltac:(lia))
    as [mp [ep [E [Hmp [Hep Hmul]]]]].
  exists (Z.shiftl (Zpos mp) ep).
  split.
  { unfold mul_int_float. rewrite Ew. cbn [bind]. unfold ret. rewrite E.
    reflexivity. }
  (* the exponents in play *)
  set (a := er + 41 + dm) in *.
  set (c := ep - (dw - 53 + er)) in *.
  set (K := ep + 41 + dm).
  set (N := - ep).
  assert (52 <= c <= 54) as Hc by (unfold c; lia).
  assert (0 <= K) as HK by (unfold K, a in *; lia).
  assert (0 < N) as HN by (unfold N, a in *; lia).
  (* the powers of two in play *)
  pose proof (pow2_pos a ltac:(lia)) as Ppa.
  pose proof (pow2_pos (53 - dw - a) ltac:(lia)) as Ppu.
  pose proof (pow2_pos K HK) as PpK.
  pose proof (pow2_pos N ltac:(lia)) as PpN.
  pose proof (pow2_pos dw ltac:(lia)) as Ppdw.
  pose proof (pow2_pos dm ltac:(lia)) as Ppdm.
  assert (2 ^ (53 - dw) = 2 ^ a * 2 ^ (53 - dw - a)) as Esw.
  { rewrite <- pow2_split by lia. f_equal. lia. }
  assert (2 ^ c = 2 ^ K * 2 ^ (53 - dw - a)) as Ec.
  { rewrite <- pow2_split by lia. f_equal. unfold c, K, a. lia. }
  assert (2 ^ 53 = (2 ^ dw * 2 ^ a) * 2 ^ (53 - dw - a)) as E53.
  { rewrite <- !pow2_split by lia. f_equal. lia. }
  assert (2 ^ (52 + dm) = 2048 * (2 ^ 41 * 2 ^ dm)) as Eg.
  { change 2048 with (2 ^ 11). rewrite <- !pow2_split by lia. f_equal. lia. }
  assert (2 ^ 41 * 2 ^ dm = 2 ^ K * 2 ^ N) as EG.
  { rewrite <- !pow2_split by lia. f_equal. unfold K, N. lia. }
  assert (2 ^ a <= 4) as Hpa.
  { change 4 with (2 ^ 2). apply Z.pow_le_mono_r; lia. }
  assert (2 ^ dw <= 2 ^ 31) as Hpdw by (apply Z.pow_le_mono_r; lia).
  (* the truncation *)
  rewrite Z.shiftl_div_pow2 by lia. fold N.
  pose proof (Z.div_mod (Zpos mp) (2 ^ N) ltac:(lia)) as Hdm'.
  pose proof (Z.mod_pos_bound (Zpos mp) (2 ^ N) PpN) as Hmod.
  set (t := Zpos mp / 2 ^ N) in *.
  (* name the quantities *)
  rewrite Vw, Esw in Hmul. rewrite Ec, E53 in Hmul. rewrite Eg in Hdiv.
  set (pa := 2 ^ a) in *. set (pu := 2 ^ (53 - dw - a)) in *.
  set (pK := 2 ^ K) in *. set (pN := 2 ^ N) in *.
  set (pdw := 2 ^ dw) in *. set (pdm := 2 ^ dm) in *.
  set (R := Zpos mr * pa) in *.
  set (A := Zpos mp * pK).
  assert (w * R - pdw * pa < A <= w * R + pdw * pa) as HA.
  { unfold A, R. split.
    - apply (Z.mul_lt_mono_pos_r pu); [exact Ppu |].
      replace ((w * (Zpos mr * pa) - pdw * pa) * pu)
        with (w * (pa * pu) * Zpos mr - pdw * pa * pu) by ring.
      replace (Zpos mp * pK * pu) with (Zpos mp * (pK * pu)) by ring.
      exact (proj1 Hmul).
    - apply (Z.mul_le_mono_pos_r _ _ pu); [exact Ppu |].
      replace ((w * (Zpos mr * pa) + pdw * pa) * pu)
        with (w * (pa * pu) * Zpos mr + pdw * pa * pu) by ring.
      replace (Zpos mp * pK * pu) with (Zpos mp * (pK * pu)) by ring.
      exact (proj2 Hmul). }
  set (g := 2 ^ 41 * pdm) in *.
  assert (0 < g) as Hg by (unfold g; change (2 ^ 41) with 2199023255552; lia).
  assert (0 < m) as Hmpos by lia.
  assert (0 < w) as Hwpos by (pose proof (pow2_pos (dw - 1) ltac:(lia)); lia).
  assert (t * g <= A < (t + 1) * g) as HtA.
  { unfold A. rewrite EG.
    set (r := Zpos mp mod pN) in *.
    pose proof (Z.mul_nonneg_nonneg r pK ltac:(lia) ltac:(lia)) as H0.
    pose proof (proj1 (Z.mul_lt_mono_pos_r pK r pN PpK) (proj2 Hmod)) as H1.
    rewrite Hdm'. lia. }
  assert (pdw * pa <= pdw * 4) as Hpp
    by (apply Z.mul_le_mono_nonneg_l; lia).
  assert ((3 * w + pdw * pa) * m < g) as Hsmall.
  { unfold g. change (2 ^ 41) with 2199023255552.
    change (2 ^ 31) with 2147483648 in Hpdw.
    assert (0 <= 3 * w + pdw * pa <= 15032385536) as HX by lia.
    pose proof (Z.mul_le_mono_nonneg (3 * w + pdw * pa) 15032385536 m pdm
                  (proj1 HX) (proj2 HX) ltac:(lia) ltac:(lia)) as HXm.
    lia. }
  assert (2048 * w * g - g < A * m < 2048 * w * g + g) as HAm.
  { pose proof (Z.mul_le_mono_nonneg_r A (w * R + pdw * pa) m
                  ltac:(lia) (proj2 HA)) as U1.
    pose proof (proj1 (Z.mul_lt_mono_pos_r m (w * R - pdw * pa) A Hmpos)
                  (proj1 HA)) as L1.
    pose proof (Z.mul_le_mono_nonneg_l (R * m) (2048 * g + 2 * m) w
                  ltac:(lia) (proj2 Hdiv)) as U2.
    pose proof (proj1 (Z.mul_lt_mono_pos_l w (2048 * g - 3 * m) (R * m) Hwpos)
                  (proj1 Hdiv)) as L2.
    pose proof (Z.mul_pos_pos w m Hwpos Hmpos) as Hwm.
    lia. }
  pose proof (Z.mul_le_mono_nonneg_r (t * g) A m ltac:(lia) (proj1 HtA)) as T1.
  pose proof (proj1 (Z.mul_lt_mono_pos_r m A ((t + 1) * g) Hmpos) (proj2 HtA)) as T2.
  split.
  - assert (t * m * g < (2048 * w + 1) * g) as H1 by lia.
    apply Z.mul_lt_mono_pos_r in H1; [lia | exact Hg].
  - assert ((2048 * w - 1) * g < (t + 1) * m * g) as H2 by lia.
    apply Z.mul_lt_mono_pos_r in H2; [lia | exact Hg].
Qed.

Lemma digits_exist (n : Z) :
  0 < n < 2 ^ 31 -> exists d, 1 <= d <= 31 /\ 2 ^ (d - 1) <= n < 2 ^ d.
Proof.
  intros [Hpos Hlt]. exists (Z.log2 n + 1).
  pose proof (Z.log2_spec n Hpos) as [Hlo Hhi].
  pose proof (Z.log2_nonneg n) as Hnn.
  replace (Z.log2 n + 1 - 1) with (Z.log2 n) by lia.
  replace (Z.succ (Z.log2 n)) with (Z.log2 n + 1) in Hhi by lia.
  split; [| split; assumption].
  assert (Z.log2 n < 31) by (apply (Z.pow_lt_mono_r_iff 2); lia).
  lia.
Qed.

(** One side of the target: [int(side * (2048 / longer))] is the floor of
    [side * 2048 / longer], or one less when that quotient is whole. *)
Lemma target_side (side longer : Z) :
  0 < side < 2 ^ 31 -> 2048 < longer < 2 ^ 31 ->
  exists ratio t,
    truediv 2048 longer = inr ratio /\
    bind (mul_int_float side ratio) int = inr t /\
    t * longer <= 2048 * side <= (t + 1) * longer.
Proof.
  intros Hs Hl.
  destruct (digits_exist side Hs) as [dw [Hdw Hw]].
  destruct (digits_exist longer ltac:(lia)) as [dm [Hdm Hm]].
  assert (12 <= dm) as Hdm12.
  { assert (11 < dm); [| lia].
    apply (Z.pow_lt_mono_r_iff 2); [lia | lia |].
    change (2 ^ 11) with 2048. lia. }
  destruct (truediv_2048 longer dm ltac:(lia) Hm)
    as [mr [er [Ediv [Hmr [Her Hval]]]]].
  destruct (scaled_side side longer dw dm mr er Hdw Hw ltac:(lia) Hm Hmr Her Hval)
    as [t [Et Ht]].
  exists (S754_finite false mr er), t.
  split; [exact Ediv |]. split; [exact Et | exact Ht].
Qed.

End Floats.

(* ===================================================================== *)
(** * The Image Normalizer *)
(* ===================================================================== *)

Section Normalizer.
Import ModelLoader.

Lemma resize_step_mode (env : Env) (image resized : PIL.Image) :
  resample_keeps_mode env ->
  resize_step env image = inr resized ->
  PIL.mode resized = PIL.mode image.
Proof.
  intros Hkeep. unfold resize_step.
  destruct (Z.max _ _ >? max_size).
  - unfold Py.bind. destruct (new_size (PIL.size image)) as [e | sz];
      [discriminate |].
    unfold PIL.resize. destruct (_ || _); [discriminate |].
    intros H. injection H as <-. apply Hkeep.
  - intros H. injection H as <-. reflexivity.
Qed.

Lemma raster_to_RGB_mode (r : PIL.raster) :
  PIL.raster_mode (PIL.raster_to_RGB r) = "RGB"%string.
Proof.
  destruct r as [d | d | d | palette d | d | d | k d | k d];
    try reflexivity.
  cbn. now destruct (PIL.palette_key palette).
Qed.

(** The conversion never fails and always ends in RGB, at the same size. *)
Lemma rgb_step_total (image : PIL.Image) :
  exists out,
    rgb_step image = inr out /\
    PIL.mode out = "RGB"%string /\ PIL.size out = PIL.size image.
Proof.
  destruct image as [sz r].
  destruct r as [d | d | d | palette d | d | d | k d | k d];
    try (eexists; split; [reflexivity | split; reflexivity]).
  - eexists. split; [reflexivity |].
    split; [exact (raster_to_RGB_mode (PIL.ModeP palette d)) | reflexivity].
  - unfold rgb_step. cbn. rewrite !size_eqb_refl. cbn.
    eexists; split; [reflexivity | split; reflexivity].
Qed.

Lemma normalize_unfold (env : Env) (image_data : Py.bytes)
      (image resized : PIL.Image) :
  Image_open env image_data = inr image ->
  resize_step env image = inr resized ->
  normalize env image_data = rgb_step resized.
Proof.
  intros Ho Hr. unfold normalize, Py.bind. now rewrite Ho, Hr.
Qed.

Lemma bind_inr {A B : Type} (a : A) (k : A -> Py.result B) :
  Py.bind (inr a) k = k a.
Proof. reflexivity. Qed.

(** The target size, for every valid size with a longer side over 2048:
    each side is the floor of its exact scaling, or one less when the exact
    scaling is whole. *)
Lemma new_size_faithful (sz : Z * Z) :
  valid_size sz ->
  2048 < Z.max (fst sz) (snd sz) ->
  exists w h,
    new_size sz = inr (w, h) /\
    w * Z.max (fst sz) (snd sz) <= 2048 * fst sz
      <= (w + 1) * Z.max (fst sz) (snd sz) /\
    h * Z.max (fst sz) (snd sz) <= 2048 * snd sz
      <= (h + 1) * Z.max (fst sz) (snd sz).
Proof.
  intros [Hw Hh] Hlong.
  set (m := Z.max (fst sz) (snd sz)) in *.
  assert (2048 < m < 2 ^ 31) as Hm by (unfold m; lia).
  destruct (target_side (fst sz) m Hw Hm) as [ratio [w [Er [Ew Bw]]]].
  destruct (target_side (snd sz) m Hh Hm) as [ratio' [h [Er' [Eh Bh]]]].
  rewrite Er in Er'. injection Er' as <-.
  exists w, h. split; [| split; assumption].
  unfold new_size. fold m. unfold max_size.
  change (Py.bind (Py.mul_int_float (fst sz) ratio) Py.int)
    with (Py.bind (Py.mul_int_float (fst sz) ratio) (fun x => Py.int x)) in Ew.
  change (Py.bind (Py.mul_int_float (snd sz) ratio) Py.int)
    with (Py.bind (Py.mul_int_float (snd sz) ratio) (fun x => Py.int x)) in Eh.
  rewrite Er, bind_inr. cbv beta.
  rewrite Ew, bind_inr. cbv beta.
  rewrite Eh. reflexivity.
Qed.

(** So the target never exceeds 2048 on a side, and its longer side is 2047
    or 2048. *)
Lemma new_size_bounds (sz : Z * Z) (w h : Z) :
  valid_size sz ->
  2048 < Z.max (fst sz) (snd sz) ->
  new_size sz = inr (w, h) ->
  0 <= w /\ 0 <= h /\ 2047 <= Z.max w h <= 2048.
Proof.
  intros Hv Hlong Hnew.
  destruct (new_size_faithful sz Hv Hlong) as [w' [h' [E [Bw Bh]]]].
  rewrite E in Hnew. injection Hnew as -> ->.
  destruct Hv as [Hw Hh].
  set (m := Z.max (fst sz) (snd sz)) in *.
  assert (0 < m) as Hm by lia.
  assert (fst sz <= m /\ snd sz <= m /\ (fst sz = m \/ snd sz = m)) as Hmax
    by (unfold m; lia).
  assert (w <= 2048) by (apply (Z.mul_le_mono_pos_r _ _ m Hm); lia).
  assert (h <= 2048) by (apply (Z.mul_le_mono_pos_r _ _ m Hm); lia).
  assert (0 < w + 1) by (apply (Z.mul_pos_cancel_r _ m Hm); lia).
  assert (0 < h + 1) by (apply (Z.mul_pos_cancel_r _ m Hm); lia).
  assert (2048 <= w + 1 \/ 2048 <= h + 1) as Hone.
  { destruct Hmax as [_ [_ [Ef | Es]]].
    - left. apply (Z.mul_le_mono_pos_r _ _ m Hm). rewrite Ef in Bw. lia.
    - right. apply (Z.mul_le_mono_pos_r _ _ m Hm). rewrite Es in Bh. lia. }
  lia.
Qed.

(** The resize step succeeds exactly on a defined target. *)
Lemma resize_step_defined (env : Env) (image : PIL.Image) :
  (exists resized, resize_step env image = inr resized)
  <-> target_defined image.
Proof.
  unfold target_defined.
  destruct (Z_le_gt_dec (longer_side image) 2048) as [Hsmall | Hlarge].
  - split; [now left |]. intros _. exists image.
    now apply resize_step_small.
  - rewrite (resize_step_large env image) by lia.
    destruct (new_size (PIL.size image)) as [e | sz] eqn:E; cbn [Py.bind].
    + split.
      * intros [resized H]. discriminate H.
      * intros [H | [sz [H _]]]; [lia | discriminate H].
    + rewrite resize_succeeds_iff. split.
      * intros H. right. now exists sz.
      * intros [H | [sz' [Heq H]]]; [lia |].
        injection Heq as <-. exact H.
Qed.

(** What leaves the normalizer is at most 2048 pixels on its longer side. *)
Lemma normalize_bounded (env : Env) (image_data : Py.bytes)
      (image normalized : PIL.Image) :
  Image_open env image_data = inr image ->
  valid_size (PIL.size image) ->
  normalize env image_data = inr normalized ->
  longer_side normalized <= 2048.
Proof.
  intros Ho Hv Hn. unfold normalize in Hn. rewrite Ho in Hn. cbn [Py.bind] in Hn.
  destruct (resize_step env image) as [e | resized] eqn:Er;
    cbn [Py.bind] in Hn; [discriminate |].
  destruct (rgb_step_total resized) as [out [Hout [_ Hsize]]].
  rewrite Hout in Hn. injection Hn as <-.
  unfold longer_side. rewrite Hsize.
  destruct (Z_le_gt_dec (longer_side image) 2048) as [Hsmall | Hlarge].
  - rewrite (resize_step_small env image Hsmall) in Er. injection Er as <-.
    exact Hsmall.
  - rewrite (resize_step_large env image) in Er by lia.
    destruct (new_size (PIL.size image)) as [e | [w h]] eqn:E;
      cbn [Py.bind] in Er; [discriminate |].
    unfold PIL.resize in Er. destruct (_ || _); [discriminate |].
    injection Er as <-. cbn [PIL.size fst snd].
    pose proof (new_size_bounds (PIL.size image) w h Hv
                  ltac:(unfold longer_side in Hlarge; lia) E).
    lia.
Qed.

(** Whenever 2048 times the shorter side is still below the longer side,
    a target side truncates to 0 and the normalizer raises. *)
Lemma extreme_aspect_ratio_fails (env : Env) (image_data : Py.bytes)
      (image : PIL.Image) :
  Image_open env image_data = inr image ->
  valid_size (PIL.size image) ->
  2048 * Z.min (fst (PIL.size image)) (snd (PIL.size image))
  < longer_side image ->
  normalize env image_data
  = inl (Py.ValueError "height and width must be > 0").
Proof.
  intros Ho Hv Hextreme.
  assert (2048 < longer_side image) as Hlarge.
  { destruct Hv as [Hw Hh]. unfold longer_side in *. lia. }
  destruct (new_size_faithful (PIL.size image) Hv Hlarge)
    as [w [h [E [Bw Bh]]]].
  pose proof (new_size_bounds (PIL.size image) w h Hv Hlarge E)
    as [Hw0 [Hh0 _]].
  unfold normalize. rewrite Ho, bind_inr.
  rewrite (resize_step_large env image Hlarge), E, bind_inr.
  unfold PIL.resize. cbn [fst snd].
  assert ((w <? 1) || (h <? 1) = true) as ->; [| reflexivity].
  unfold longer_side in *.
  set (m := Z.max (fst (PIL.size image)) (snd (PIL.size image))) in *.
  assert (0 < m) as Hm by lia.
  apply orb_true_iff.
  destruct (Z.min_spec (fst (PIL.size image)) (snd (PIL.size image)))
    as [[_ Emin] | [_ Emin]]; rewrite Emin in Hextreme.
  - left. apply Z.ltb_lt.
    assert (w * m < 1 * m) as H by lia.
    apply Z.mul_lt_mono_pos_r in H; [exact H | exact Hm].
  - right. apply Z.ltb_lt.
    assert (h * m < 1 * m) as H by lia.
    apply Z.mul_lt_mono_pos_r in H; [exact H | exact Hm].
Qed.




(** C2, at two uploads the code can receive.  A 4097 x 1 image: the target
    height truncates to 0 and the normalizer raises instead of
    downscaling.  A 2215 x 3 image: the float product falls just under
    2048 and the longer side comes out 2047. *)
Theorem downscale_failing_inputs :
  (Image_open (Demo.env (inr [])) [x57] = inr Demo.strip /\
   PIL.size Demo.strip = (4097, 1) /\
   new_size (4097, 1) = inr (2048, 0) /\
   normalize (Demo.env (inr [])) [x57]
   = inl (Py.ValueError "height and width must be > 0")) /\
  (Image_open (Demo.env (inr [])) [x53] = inr Demo.slab /\
   PIL.size Demo.slab = (2215, 3) /\
   new_size (2215, 3) = inr (2047, 2) /\
   exists out,
     normalize (Demo.env (inr [])) [x53] = inr out /\
     PIL.size out = (2047, 2)).
Proof.
  split; repeat split; try reflexivity.
  eexists. split; vm_compute; reflexivity.
Qed.

End Normalizer.

(* ===================================================================== *)
(** * Claims about the handler and the whole request *)
(* ===================================================================== *)

Section Requests.
Import App.

(** C10.  The target size is computed by truncation; for a 4097 x 1 image
    it is (2048, 0), the normalizer raises, the method wraps the failure
    and the request ends in 500.  In general the resize branch succeeds
    exactly when both truncated sides are at least 1, and it fails for
    every image whose longer side exceeds 2048 times its shorter side. *)
Theorem zero_dimension_fails
        (env : Env) (self : ModelLoader.BackgroundRemover)
        (image_data : Py.bytes) (image : PIL.Image) :
  Image_open env image_data = inr image ->
  PIL.size image = (4097, 1) ->
  ModelLoader.new_size (PIL.size image) = inr (2048, 0) /\
  ModelLoader.normalize env image_data
  = inl (Py.ValueError "height and width must be > 0") /\
  ModelLoader.remove_background env self image_data
  = inl (Py.RuntimeError
           "Failed to remove background: height and width must be > 0") /\
  (forall file elapsed,
      allowed file -> read file = inr image_data ->
      len image_data <= 10485760 ->
      status_of (fst (App.remove_background env (Some self) file elapsed))
      = 500) /\
  (forall (large : PIL.Image) (sz : Z * Z),
      2048 < longer_side large ->
      ModelLoader.new_size (PIL.size large) = inr sz ->
      ((exists out, ModelLoader.resize_step env large = inr out)
       <-> 1 <= fst sz /\ 1 <= snd sz)) /\
  (forall (other_data : Py.bytes) (extreme : PIL.Image),
      Image_open env other_data = inr extreme ->
      valid_size (PIL.size extreme) ->
      2048 * Z.min (fst (PIL.size extreme)) (snd (PIL.size extreme))
      < longer_side extreme ->
      ModelLoader.normalize env other_data
      = inl (Py.ValueError "height and width must be > 0")).
Proof.
  intros Ho Hsz.
  assert (ModelLoader.normalize env image_data
          = inl (Py.ValueError "height and width must be > 0")) as Hn.
  { unfold ModelLoader.normalize, Py.bind. rewrite Ho.
    rewrite resize_step_large by (unfold longer_side; rewrite Hsz; cbn; lia).
    rewrite Hsz. reflexivity. }
  split; [now rewrite Hsz |].
  split; [exact Hn |].
  split; [now rewrite (normalize_raises_through env self image_data _ Hn) |].
  split.
  - intros file elapsed Hct Hread Hlen.
    apply not_in_allowed_false in Hct.
    rewrite (processed env self file elapsed image_data Hct Hread Hlen).
    now rewrite (normalize_raises_through env self image_data _ Hn).
  - split.
    + intros large sz Hlarge Hnew.
      rewrite (resize_step_large env large Hlarge), Hnew.
      apply resize_succeeds_iff.
    + intros other_data extreme. apply extreme_aspect_ratio_fails.
Qed.

Lemma zero_dimension_fails_witness :
  status_of
    (fst (App.remove_background (Demo.env (inr []))
            (Some ModelLoader.bg_remover_instance)
            (Demo.upload (Some "image/png"%string) [x57]) "0.01"))
  = 500.
Proof.
  apply (zero_dimension_fails (Demo.env (inr []))
           ModelLoader.bg_remover_instance [x57] Demo.strip
           eq_refl eq_refl).
  - exists "image/png"%string. split; [reflexivity | simpl; tauto].
  - reflexivity.
  - cbn. lia.
Defined.

(** C3 (as amended).  While the model is loaded, an upload whose declared
    content type is none of image/jpeg, image/png, image/jpg is answered
    400 with a message that includes the rejected type, before the body
    is read; and in no state does such a request reach the pipeline. *)
Theorem content_type_rejected
        (env : Env) (remover : ModelLoader.BackgroundRemover)
        (file : UploadFile) (elapsed : string) :
  ~ allowed file ->
  (exists detail,
      App.remove_background env (Some remover) file elapsed
      = (inl (HTTPException 400 detail), []) /\
      includes (Py.str_opt (content_type file)) detail) /\
  (forall st d,
      ~ In (RemoveBackground d)
           (snd (App.remove_background env st file elapsed))).
Proof.
  intros Hct. apply not_in_allowed_true in Hct. split.
  - eexists. split; [apply (bad_type env remover file elapsed Hct) |].
    apply includes_suffix.
  - intros st d Hin.
    apply pipeline_called_only_when_valid in Hin.
    destruct Hin as [_ [Habs _]]. congruence.
Qed.

Lemma content_type_rejected_witness :
  exists detail,
    App.remove_background (Demo.env (inr []))
      (Some ModelLoader.bg_remover_instance)
      (Demo.upload (Some "text/plain"%string) []) "0.00"
    = (inl (HTTPException 400 detail), []) /\
    includes "text/plain" detail.
Proof.
  apply (content_type_rejected (Demo.env (inr []))
           ModelLoader.bg_remover_instance
           (Demo.upload (Some "text/plain"%string) []) "0.00").
  intros [s [Heq Hin]]. injection Heq as <-.
  simpl in Hin. intuition discriminate.
Defined.

(** C3, as stated, fails while the model is not loaded: the rejected type
    is answered 503, not 400. *)
Lemma bad_type_while_unready_is_503 :
  ~ allowed (Demo.upload (Some "text/plain"%string) []) /\
  status_of
    (fst (App.remove_background (Demo.env (inr [])) None
            (Demo.upload (Some "text/plain"%string) []) "0.00"))
  = 503 /\
  status_of
    (fst (App.remove_background (Demo.env (inr [])) None
            (Demo.upload (Some "text/plain"%string) []) "0.00"))
  <> 400.
Proof.
  split; [| split; [reflexivity | discriminate]].
  intros [s [Heq Hin]]. injection Heq as <-.
  simpl in Hin. intuition discriminate.
Qed.

(** C4 (as amended).  While the model is loaded, an upload of an allowed
    type whose body is longer than 10,485,760 bytes is answered 400 with
    a message that includes the length; and in no state does such a
    request reach the pipeline. *)
Theorem oversized_body_rejected
        (env : Env) (remover : ModelLoader.BackgroundRemover)
        (file : UploadFile) (elapsed : string) (image_data : Py.bytes) :
  allowed file ->
  read file = inr image_data ->
  len image_data > 10 * 1024 * 1024 ->
  (exists detail,
      App.remove_background env (Some remover) file elapsed
      = (inl (HTTPException 400 detail), [FileRead]) /\
      includes (Py.str_int (len image_data)) detail) /\
  (forall st d,
      ~ In (RemoveBackground d)
           (snd (App.remove_background env st file elapsed))).
Proof.
  intros Hct Hread Hlen. apply not_in_allowed_false in Hct.
  change (10 * 1024 * 1024) with 10485760 in Hlen. split.
  - eexists.
    split; [apply (too_large env remover file elapsed image_data Hct Hread Hlen) |].
    apply includes_middle.
  - intros st d Hin.
    apply pipeline_called_only_when_valid in Hin.
    destruct Hin as [_ [_ [Hd Hsmall]]].
    rewrite Hread in Hd. injection Hd as <-. lia.
Qed.

Lemma oversized_body_rejected_witness :
  exists detail,
    App.remove_background (Demo.env (inr []))
      (Some ModelLoader.bg_remover_instance)
      (Demo.upload (Some "image/png"%string) Demo.oversized) "0.00"
    = (inl (HTTPException 400 detail), [FileRead]) /\
    includes (Py.str_int (len Demo.oversized)) detail.
Proof.
  apply (oversized_body_rejected (Demo.env (inr []))
           ModelLoader.bg_remover_instance
           (Demo.upload (Some "image/png"%string) Demo.oversized) "0.00"
           Demo.oversized).
  - exists "image/png"%string. split; [reflexivity | simpl; tauto].
  - reflexivity.
  - rewrite oversized_len. lia.
Defined.

(** C4, as stated, fails while the model is not loaded: the oversized
    body is answered 503, not 400. *)
Lemma oversized_while_unready_is_503 :
  allowed (Demo.upload (Some "image/png"%string) Demo.oversized) /\
  len Demo.oversized > 10 * 1024 * 1024 /\
  status_of
    (fst (App.remove_background (Demo.env (inr [])) None
            (Demo.upload (Some "image/png"%string) Demo.oversized) "0.00"))
  = 503 /\
  status_of
    (fst (App.remove_background (Demo.env (inr [])) None
            (Demo.upload (Some "image/png"%string) Demo.oversized) "0.00"))
  <> 400.
Proof.
  split; [| split; [| split]].
  - exists "image/png"%string. split; [reflexivity | simpl; tauto].
  - rewrite oversized_len. lia.
  - rewrite not_ready. reflexivity.
  - rewrite not_ready. discriminate.
Qed.

(** With the model loaded the handler raises no 503 of its own: the
    status can only be that of an [HTTPException] the read raised, which
    the handler raises again. *)
Lemma ready_503_iff
      (env : Env) (remover : ModelLoader.BackgroundRemover)
      (file : UploadFile) (elapsed : string) :
  status_of (fst (App.remove_background env (Some remover) file elapsed)) = 503
  <-> allowed file /\
      exists detail, read file = inl (HTTPException 503 detail).
Proof.
  destruct (not_in_allowed (content_type file)) eqn:Hct.
  { rewrite (bad_type env remover file elapsed Hct). split; [discriminate |].
    intros [Hal _]. apply not_in_allowed_false in Hal. congruence. }
  assert (allowed file) as Hal by now apply not_in_allowed_false.
  destruct (read file) as [[s msg | e | e] | data] eqn:Hread.
  - rewrite (read_raises_through env remover file elapsed _ Hct Hread)
      by discriminate.
    cbn [fst status_of]. split.
    + intros ->. split; [exact Hal |]. now exists msg.
    + intros [_ [detail H]]. now injection H as ->.
  - rewrite (read_fails env remover file elapsed e Hct Hread).
    split; [discriminate |]. intros [_ [detail H]]. discriminate H.
  - rewrite (read_raises_through env remover file elapsed _ Hct Hread)
      by discriminate.
    split; [discriminate |]. intros [_ [detail H]]. discriminate H.
  - assert (status_of
              (fst (App.remove_background env (Some remover) file elapsed))
            <> 503) as Hno.
    { destruct (Z_gt_le_dec (len data) 10485760) as [Hbig | Hsmall].
      - rewrite (too_large env remover file elapsed data Hct Hread Hbig).
        discriminate.
      - rewrite (processed env remover file elapsed data Hct Hread Hsmall).
        destruct (ModelLoader.remove_background env remover data);
          discriminate. }
    split; [contradiction |]. intros [_ [detail H]]. discriminate H.
Qed.

(** The handler returns a response only with the model loaded. *)
Lemma served_only_when_ready
      (env : Env) (st : state) (file : UploadFile) (elapsed : string)
      (r : returned) :
  fst (App.remove_background env st file elapsed) = inr r -> st <> None.
Proof.
  destruct st as [remover |]; [discriminate |].
  rewrite not_ready. discriminate.
Qed.

(** C6.  With no model handle, as before start-up and after shut-down,
    every upload is answered 503 with the service-unavailable message and
    nothing is called: no read, no validation, no processing.  Only with
    the handle present is a request served; the handler itself raises 503
    for an absent handle and for nothing else, so a request is answered
    503 exactly when the handle is absent or the read of the upload itself
    raised an [HTTPException] of that status, which passes through. *)
Theorem only_ready_serves
        (env : Env) (file : UploadFile) (elapsed : string) :
  App.remove_background env None file elapsed
  = (inl (HTTPException 503
            "Background removal service is not available. Model not loaded."),
     []) /\
  App.remove_background env initial file elapsed
  = App.remove_background env None file elapsed /\
  (forall st,
      App.remove_background env (shutdown_event st) file elapsed
      = App.remove_background env None file elapsed) /\
  (forall st,
      status_of (fst (App.remove_background env st file elapsed)) = 503
      <-> st = None \/
          (allowed file /\
           exists detail, read file = inl (HTTPException 503 detail))) /\
  (forall st,
      (forall detail, read file <> inl (HTTPException 503 detail)) ->
      (status_of (fst (App.remove_background env st file elapsed)) = 503
       <-> st = None)) /\
  (forall st r,
      fst (App.remove_background env st file elapsed) = inr r ->
      st <> None).
Proof.
  split; [reflexivity |]. split; [reflexivity |]. split; [reflexivity |].
  split; [| split].
  - intros [remover |].
    + rewrite ready_503_iff. split.
      * intros H. now right.
      * intros [H | H]; [discriminate H | exact H].
    + split; [now left | reflexivity].
  - intros [remover |] Hread.
    + rewrite ready_503_iff. split.
      * intros [_ [detail H]]. now destruct (Hread detail).
      * discriminate.
    + split; reflexivity.
  - intros st r. apply served_only_when_ready.
Qed.

Lemma only_ready_serves_witness :
  status_of
    (fst (App.remove_background (Demo.env (inr [])) initial
            (Demo.upload (Some "image/png"%string) [x43]) "0.00"))
  = 503.
Proof.
  apply (proj1 (proj2 (proj2 (proj2
           (only_ready_serves (Demo.env (inr []))
              (Demo.upload (Some "image/png"%string) [x43]) "0.00"))))).
  left. reflexivity.
Defined.



(** C8.  The health check always returns, with status 200, the three
    fields: the fixed status, whether the model handle is present, and
    the fixed service name; it makes no call.  The handle is absent at
    the start and after shut-down and present after a start-up that
    succeeded. *)
Theorem health_reports_model (env : Env) (st : state) :
  health_check st
  = (inr (Dict [("status"%string, JString "healthy");
                ("model_loaded"%string, JBool (is_not_None st));
                ("service"%string, JString "u2net-background-removal")]),
     []) /\
  status_of (fst (health_check st)) = 200 /\
  is_not_None initial = false /\
  is_not_None (shutdown_event st) = false /\
  (forall st', startup_event env st = inr st' -> is_not_None st' = true).
Proof.
  repeat split.
  intros st'. unfold startup_event, Py.try_except, Py.bind.
  destruct (ModelLoader.init env); [discriminate |].
  intros H. injection H as <-. reflexivity.
Qed.

Lemma health_reports_model_witness :
  startup_event (Demo.env (inr [])) initial
  = inr (Some ModelLoader.bg_remover_instance) /\
  is_not_None (Some ModelLoader.bg_remover_instance) = true.
Proof.
  split; [reflexivity |].
  apply (proj2 (proj2 (proj2 (proj2
           (health_reports_model (Demo.env (inr [])) initial))))).
  reflexivity.
Defined.

End Requests.

(* ===================================================================== *)
(** * The Segmentation Adapter and the round trip *)
(* ===================================================================== *)

Section Adapter.
Import ModelLoader.

Lemma as_RGBA_mode (image : PIL.Image) :
  PIL.mode (as_RGBA image) = "RGBA"%string.
Proof. reflexivity. Qed.

(** C5 (as amended).  When the method returns, what it returns opens as
    an RGBA image of the size of the model's output: that output
    converted, whatever mode the model answered in.  The colours are the
    model's; an RGBA output is passed on as it is; an output with neither
    a transparency channel nor a colour key gets a fully opaque channel;
    an output with a colour key gets alpha 0 on the pixels of the key
    colour and 255 on the others. *)
Theorem adapter_output_is_rgba
        (env : Env) (self : BackgroundRemover)
        (image_data out : Py.bytes) :
  png_lossless env ->
  remove_background env self image_data = inr out ->
  exists image model_bytes model_image,
    normalize env image_data = inr image /\
    remove env (save_PNG env image) = inr model_bytes /\
    Image_open env model_bytes = inr model_image /\
    Image_open env out = inr (as_RGBA model_image) /\
    PIL.mode (as_RGBA model_image) = "RGBA"%string /\
    PIL.size (as_RGBA model_image) = PIL.size model_image /\
    map fst (PIL.to_RGBA (PIL.im model_image))
    = PIL.to_RGB (PIL.im model_image) /\
    (PIL.mode model_image = "RGBA"%string ->
     as_RGBA model_image = model_image) /\
    (Spec.has_transparency (PIL.im model_image) = false ->
     PIL.colour_key (PIL.im model_image) = None ->
     as_RGBA model_image = Spec.add_opaque_channel model_image) /\
    (forall key,
        PIL.colour_key (PIL.im model_image) = Some key ->
        PIL.to_RGBA (PIL.im model_image)
        = map (PIL.keyed key) (PIL.to_RGB (PIL.im model_image)) /\
        PIL.keyed key key = (key, 0) /\
        (forall c, c <> key -> PIL.keyed key c = (c, 255))).
Proof.
  intros Hpng Hout.
  destruct (remove_background_returns env self image_data out Hout)
    as [image [Hn Hs]].
  destruct (segment_returns env image out Hs)
    as [model_bytes [model_image [Hr [Ho ->]]]].
  exists image, model_bytes, model_image.
  split; [exact Hn |]. split; [exact Hr |]. split; [exact Ho |].
  split; [apply Hpng, as_RGBA_mode |].
  split; [reflexivity |]. split; [reflexivity |].
  split; [apply to_RGBA_colours |].
  split; [| split].
  - destruct model_image as [sz r]. unfold PIL.mode. cbn [PIL.im].
    destruct r; cbn; try discriminate. reflexivity.
  - intros Ht Hk. unfold as_RGBA, Spec.add_opaque_channel.
    now rewrite (to_RGBA_opaque _ Ht Hk).
  - intros key Hk. split; [now apply to_RGBA_keyed |].
    split; [now apply keyed_alpha |].
    intros c. apply keyed_alpha.
Qed.

Lemma adapter_output_is_rgba_witness :
  remove_background (Demo.env (inr [x4c])) bg_remover_instance [x43]
  = inr (Demo.save (as_RGBA Demo.grey_pixel)) /\
  exists image model_bytes model_image,
    normalize (Demo.env (inr [x4c])) [x43] = inr image /\
    remove (Demo.env (inr [x4c])) (save_PNG (Demo.env (inr [x4c])) image)
    = inr model_bytes /\
    Image_open (Demo.env (inr [x4c])) model_bytes = inr model_image /\
    Image_open (Demo.env (inr [x4c])) (Demo.save (as_RGBA Demo.grey_pixel))
    = inr (as_RGBA model_image) /\
    PIL.mode (as_RGBA model_image) = "RGBA"%string /\
    PIL.size (as_RGBA model_image) = PIL.size model_image /\
    map fst (PIL.to_RGBA (PIL.im model_image))
    = PIL.to_RGB (PIL.im model_image) /\
    (PIL.mode model_image = "RGBA"%string ->
     as_RGBA model_image = model_image) /\
    (Spec.has_transparency (PIL.im model_image) = false ->
     PIL.colour_key (PIL.im model_image) = None ->
     as_RGBA model_image = Spec.add_opaque_channel model_image) /\
    (forall key,
        PIL.colour_key (PIL.im model_image) = Some key ->
        PIL.to_RGBA (PIL.im model_image)
        = map (PIL.keyed key) (PIL.to_RGB (PIL.im model_image)) /\
        PIL.keyed key key = (key, 0) /\
        (forall c, c <> key -> PIL.keyed key c = (c, 255))).
Proof.
  split; [reflexivity |].
  apply (adapter_output_is_rgba (Demo.env (inr [x4c])) bg_remover_instance
           [x43] (Demo.save (as_RGBA Demo.grey_pixel))
           (demo_png_lossless (inr [x4c])) eq_refl).
Defined.

(** C5, as stated, fails when the model answers with an RGB picture that
    declares a colour key: the picture has no transparency channel, yet
    the channel it is given is not opaque, the pixel of the key colour
    coming out fully transparent. *)
Lemma keyed_model_output_is_not_opaque :
  Image_open (Demo.env (inr [x4b])) [x4b] = inr Demo.keyed_pixel /\
  PIL.mode Demo.keyed_pixel = "RGB"%string /\
  Spec.has_transparency (PIL.im Demo.keyed_pixel) = false /\
  remove_background (Demo.env (inr [x4b])) bg_remover_instance [x43]
  = inr (Demo.save (as_RGBA Demo.keyed_pixel)) /\
  Image_open (Demo.env (inr [x4b])) (Demo.save (as_RGBA Demo.keyed_pixel))
  = inr {| PIL.size := (1, 1); PIL.im := PIL.ModeRGBA [(10, 20, 30, 0)] |} /\
  Spec.to_four_channel Demo.keyed_pixel
  = {| PIL.size := (1, 1); PIL.im := PIL.ModeRGBA [(10, 20, 30, 255)] |} /\
  Image_open (Demo.env (inr [x4b])) (Demo.save (as_RGBA Demo.keyed_pixel))
  <> inr (Spec.to_four_channel Demo.keyed_pixel).
Proof.
  repeat split; try reflexivity.
  intros H. vm_compute in H. discriminate H.
Qed.

(** C9.  Given a model that answers a picture with one of the same size,
    and an upload with positive sides below 2^31: what the method
    returned opens as an RGBA raster of at most 2048 pixels on its longer
    side, and the normalizer, fed those bytes, succeeds.  The decode gives
    that raster, the resize step leaves it as it is, and the conversion
    composites it onto white into an RGB image of the same size. *)
Theorem round_trip_succeeds
        (env : Env) (self : BackgroundRemover)
        (image_data out : Py.bytes) (image : PIL.Image) :
  png_lossless env ->
  Image_open env image_data = inr image ->
  valid_size (PIL.size image) ->
  (forall normalized,
      normalize env image_data = inr normalized ->
      keeps_size env normalized) ->
  remove_background env self image_data = inr out ->
  exists rgba again,
    Image_open env out = inr rgba /\
    PIL.mode rgba = "RGBA"%string /\
    longer_side rgba <= 2048 /\
    resize_step env rgba = inr rgba /\
    rgb_step rgba = inr again /\
    normalize env out = inr again /\
    PIL.mode again = "RGB"%string /\
    PIL.size again = PIL.size rgba /\
    (well_formed rgba -> again = Spec.composite_on_white rgba).
Proof.
  intros Hpng Hopen Hvalid Hkeep Hout.
  destruct (remove_background_returns env self image_data out Hout)
    as [normalized [Hn Hs]].
  destruct (segment_returns env normalized out Hs)
    as [model_bytes [model_image [Hr [Ho ->]]]].
  pose proof (Hkeep normalized Hn model_bytes model_image Hr Ho) as Hsize.
  pose proof (normalize_bounded env image_data image normalized
                Hopen Hvalid Hn) as Hb.
  pose proof (Hpng (as_RGBA model_image) (as_RGBA_mode model_image)) as Hrgba.
  set (rgba := as_RGBA model_image) in *.
  assert (longer_side rgba <= 2048) as Hsmall.
  { unfold longer_side in *. cbn [rgba as_RGBA PIL.size].
    rewrite Hsize. exact Hb. }
  pose proof (resize_step_small env rgba Hsmall) as Hres.
  destruct (rgb_step_total rgba) as [again [Hstep [Hmode Hsz]]].
  exists rgba, again.
  split; [exact Hrgba |]. split; [reflexivity |].
  split; [exact Hsmall |]. split; [exact Hres |]. split; [exact Hstep |].
  split; [now rewrite (normalize_unfold env _ rgba rgba Hrgba Hres) |].
  split; [exact Hmode |]. split; [exact Hsz |].
  intros Hwf.
  rewrite (rgb_step_RGBA rgba Hwf eq_refl) in Hstep.
  now injection Hstep as <-.
Qed.

Lemma round_trip_succeeds_witness :
  remove_background (Demo.env (inr [x4c])) bg_remover_instance [x43]
  = inr (Demo.save (as_RGBA Demo.grey_pixel)) /\
  exists rgba again,
    Image_open (Demo.env (inr [x4c])) (Demo.save (as_RGBA Demo.grey_pixel))
    = inr rgba /\
    PIL.mode rgba = "RGBA"%string /\
    longer_side rgba <= 2048 /\
    resize_step (Demo.env (inr [x4c])) rgba = inr rgba /\
    rgb_step rgba = inr again /\
    normalize (Demo.env (inr [x4c])) (Demo.save (as_RGBA Demo.grey_pixel))
    = inr again /\
    PIL.mode again = "RGB"%string /\
    PIL.size again = PIL.size rgba /\
    (well_formed rgba -> again = Spec.composite_on_white rgba).
Proof.
  split; [reflexivity |].
  apply (round_trip_succeeds
           (Demo.env (inr [x4c])) bg_remover_instance
           [x43] (Demo.save (as_RGBA Demo.grey_pixel)) Demo.rgb_pixel
           (demo_png_lossless (inr [x4c])) eq_refl).
  - unfold valid_size. cbn. lia.
  - intros normalized Hn model_bytes model_image Hr Ho.
    vm_compute in Hn. injection Hn as <-.
    vm_compute in Hr. injection Hr as <-.
    vm_compute in Ho. injection Ho as <-.
    reflexivity.
  - reflexivity.
Defined.

End Adapter.

(* ===================================================================== *)
(** * Further properties of the handler *)
(* ===================================================================== *)

Section HandlerOutcomes.
Import App.

Lemma at_limit_len : len Demo.at_limit = 10485760.
Proof. unfold len, Demo.at_limit. rewrite repeat_length. lia. Qed.

(** The seven ways a request can end. *)
Lemma handler_cases
      (env : Env) (st : state) (file : UploadFile) (elapsed : string) :
  (st = None /\
   App.remove_background env st file elapsed
   = (inl (HTTPException 503
             "Background removal service is not available. Model not loaded."),
      [])) \/
  (exists remover,
      st = Some remover /\ ~ allowed file /\
      App.remove_background env st file elapsed
      = (inl (HTTPException 400
                ("Invalid file type. Only JPG and PNG are supported. Got: "
                   ++ Py.str_opt (content_type file))%string),
         [])) \/
  (exists remover e,
      st = Some remover /\ allowed file /\ read file = inl (Other e) /\
      App.remove_background env st file elapsed
      = (inl (HTTPException 500 ("Failed to process image: " ++ Py.str e)%string),
         [FileRead])) \/
  (exists remover err,
      st = Some remover /\ allowed file /\ read file = inl err /\
      (forall e, err <> Other e) /\
      App.remove_background env st file elapsed = (inl err, [FileRead])) \/
  (exists remover data,
      st = Some remover /\ allowed file /\ read file = inr data /\
      len data > 10485760 /\
      App.remove_background env st file elapsed
      = (inl (HTTPException 400
                ("File too large. Maximum size is 10MB. Got: "
                   ++ Py.str_int (len data) ++ " bytes")%string),
         [FileRead])) \/
  (exists remover data e,
      st = Some remover /\ allowed file /\ read file = inr data /\
      len data <= 10485760 /\
      ModelLoader.remove_background env remover data = inl e /\
      App.remove_background env st file elapsed
      = (inl (HTTPException 500 ("Failed to process image: " ++ Py.str e)%string),
         [FileRead; RemoveBackground data])) \/
  (exists remover data png,
      st = Some remover /\ allowed file /\ read file = inr data /\
      len data <= 10485760 /\
      ModelLoader.remove_background env remover data = inr png /\
      App.remove_background env st file elapsed
      = (inr (Response png "image/png"
                [("Content-Disposition"%string,
                  ("attachment; filename=" ++ quoted "bgremoved.png")%string);
                 ("X-Processing-Time"%string, elapsed)]),
         [FileRead; RemoveBackground data])).
Proof.
  destruct st as [remover |]; [| left; split; reflexivity].
  right.
  destruct (not_in_allowed (content_type file)) eqn:Hct.
  { left. exists remover. split; [reflexivity |].
    split; [now apply not_in_allowed_true |].
    apply (bad_type env remover file elapsed Hct). }
  right.
  assert (allowed file) as Hal by now apply not_in_allowed_false.
  destruct (read file) as [err | data] eqn:Hread.
  { destruct err as [s msg | e | e].
    - right. left. exists remover, (HTTPException s msg).
      repeat split; try assumption; try discriminate.
      apply (read_raises_through env remover file elapsed _ Hct Hread).
      discriminate.
    - left. exists remover, e. repeat split; try assumption.
      apply (read_fails env remover file elapsed e Hct Hread).
    - right. left. exists remover, (BaseException e).
      repeat split; try assumption; try discriminate.
      apply (read_raises_through env remover file elapsed _ Hct Hread).
      discriminate. }
  right. right.
  destruct (Z_gt_le_dec (len data) 10485760) as [Hbig | Hsmall].
  { left. exists remover, data. repeat split; try assumption.
    apply (too_large env remover file elapsed data Hct Hread Hbig). }
  right.
  pose proof (processed env remover file elapsed data Hct Hread Hsmall) as Hp.
  destruct (ModelLoader.remove_background env remover data) as [e | png] eqn:Hrb.
  - left. exists remover, data, e. repeat split; assumption.
  - right. exists remover, data, png. repeat split; assumption.
Qed.

(** X1.  A request ends in one of three ways: the handler returns the
    response, it raises an [HTTPException], or what the read raised from
    outside [Exception] passes through it; no other exception leaves it.
    An [HTTPException] it raises has status 400, 500 or 503, unless it is
    the one the read raised, which passes unchanged; so a request whose
    read raises nothing of that kind ends in 200, 400, 500 or 503.  The
    handler returns exactly when the model is loaded, the declared type is
    allowed, the body was read, is at most 10,485,760 bytes long and the
    pipeline returned; the response then carries the pipeline's bytes as
    image/png with the two headers. *)
Theorem handler_status_codes
        (env : Env) (st : state) (file : UploadFile) (elapsed : string) :
  (forall e,
      fst (App.remove_background env st file elapsed) <> inl (Other e)) /\
  (forall e,
      fst (App.remove_background env st file elapsed) = inl (BaseException e) ->
      st <> None /\ allowed file /\ read file = inl (BaseException e)) /\
  (forall s d,
      fst (App.remove_background env st file elapsed)
      = inl (HTTPException s d) ->
      s = 400 \/ s = 500 \/ s = 503 \/
      (st <> None /\ allowed file /\ read file = inl (HTTPException s d))) /\
  ((forall err, read file = inl err -> exists e, err = Other e) ->
   status_of (fst (App.remove_background env st file elapsed)) = 200 \/
   status_of (fst (App.remove_background env st file elapsed)) = 400 \/
   status_of (fst (App.remove_background env st file elapsed)) = 500 \/
   status_of (fst (App.remove_background env st file elapsed)) = 503) /\
  ((exists r, fst (App.remove_background env st file elapsed) = inr r)
   <-> exists remover data png,
         st = Some remover /\ allowed file /\ read file = inr data /\
         len data <= 10 * 1024 * 1024 /\
         ModelLoader.remove_background env remover data = inr png) /\
  (forall remover data png r,
      st = Some remover -> read file = inr data ->
      ModelLoader.remove_background env remover data = inr png ->
      fst (App.remove_background env st file elapsed) = inr r ->
      r = Response png "image/png"
            [("Content-Disposition"%string,
              ("attachment; filename=" ++ quoted "bgremoved.png")%string);
             ("X-Processing-Time"%string, elapsed)]).
Proof.
  change (10 * 1024 * 1024) with 10485760.
  destruct (handler_cases env st file elapsed)
    as [[Hst E]
       | [[r [Hst [Hna E]]]
         | [[r [e [Hst [Hal [Hrd E]]]]]
           | [[r [err [Hst [Hal [Hrd [Hno E]]]]]]
             | [[r [d [Hst [Hal [Hrd [Hbig E]]]]]]
               | [[r [d [e [Hst [Hal [Hrd [Hsm [Hrb E]]]]]]]]
                 | [r [d [png [Hst [Hal [Hrd [Hsm [Hrb E]]]]]]]]]]]]]];
    rewrite E; cbn [fst status_of].
  - split; [discriminate |]. split; [discriminate |].
    split; [intros s d H; injection H as <- _; auto |].
    split; [auto |]. split.
    + split; [intros [r H]; discriminate H |].
      intros [r [d [png [H _]]]]. congruence.
    + discriminate.
  - split; [discriminate |]. split; [discriminate |].
    split; [intros s d H; injection H as <- _; auto |].
    split; [auto |]. split.
    + split; [intros [r' H]; discriminate H |].
      intros [r' [d [png [_ [H _]]]]]. contradiction.
    + discriminate.
  - split; [discriminate |]. split; [discriminate |].
    split; [intros s d H; injection H as <- _; auto |].
    split; [auto |]. split.
    + split; [intros [r' H]; discriminate H |].
      intros [r' [d [png [_ [_ [H _]]]]]]. congruence.
    + discriminate.
  - split; [intros e H; injection H as ->; now destruct (Hno e) |].
    split; [intros e H; injection H as ->; subst st;
            repeat split; [discriminate | exact Hal | exact Hrd] |].
    split; [intros s d H; injection H as ->; subst st;
            right; right; right;
            repeat split; [discriminate | exact Hal | exact Hrd] |].
    split; [intros H; destruct (H err Hrd) as [e ->]; now destruct (Hno e) |].
    split.
    + split; [intros [r' H]; discriminate H |].
      intros [r' [d [png [_ [_ [H _]]]]]]. congruence.
    + discriminate.
  - split; [discriminate |]. split; [discriminate |].
    split; [intros s d' H; injection H as <- _; auto |].
    split; [auto |]. split.
    + split; [intros [r' H]; discriminate H |].
      intros [r' [d' [png [_ [_ [H [Hle _]]]]]]].
      rewrite Hrd in H. injection H as <-. lia.
    + discriminate.
  - split; [discriminate |]. split; [discriminate |].
    split; [intros s d' H; injection H as <- _; auto |].
    split; [auto |]. split.
    + split; [intros [r' H]; discriminate H |].
      intros [r' [d' [png [Hs [_ [H [_ Hok]]]]]]].
      rewrite Hrd in H. injection H as <-.
      assert (r' = r) as -> by congruence. congruence.
    + discriminate.
  - split; [discriminate |]. split; [discriminate |].
    split; [discriminate |].
    split; [auto |]. split.
    + split; [| intros _; eexists; reflexivity].
      intros _. now exists r, d, png.
    + intros r' d' png' resp Hs Hrd' Hrb' Hresp.
      rewrite Hrd in Hrd'. injection Hrd' as <-.
      assert (r' = r) as -> by congruence.
      rewrite Hrb in Hrb'. injection Hrb' as <-.
      now injection Hresp as <-.
Qed.

Lemma handler_status_codes_witness :
  exists r,
    fst (App.remove_background (Demo.env (inr [x4c]))
           (Some ModelLoader.bg_remover_instance)
           (Demo.upload (Some "image/png"%string) [x43]) "0.10")
    = inr r.
Proof.
  apply (proj2 (proj1 (proj2 (proj2 (proj2 (proj2
           (handler_status_codes
              (Demo.env (inr [x4c]))
              (Some ModelLoader.bg_remover_instance)
              (Demo.upload (Some "image/png"%string) [x43])
              "0.10"))))))).
  exists ModelLoader.bg_remover_instance, [x43],
         (Demo.save (as_RGBA Demo.grey_pixel)).
  split; [reflexivity |].
  split; [exists "image/png"%string; split; [reflexivity | simpl; tauto] |].
  split; [reflexivity |].
  split; [cbn; lia | reflexivity].
Defined.

(** X2.  The handler calls the pipeline exactly when the model is loaded,
    the declared type is allowed, the body was read and is at most
    10,485,760 bytes long (a body of exactly that length is processed), and
    then with the body it read.  It reads at most once and calls the
    pipeline at most once, after the read. *)
Theorem pipeline_called_iff
        (env : Env) (st : state) (file : UploadFile) (elapsed : string)
        (d : Py.bytes) :
  (In (RemoveBackground d) (snd (App.remove_background env st file elapsed))
   <-> st <> None /\ allowed file /\ read file = inr d /\
       len d <= 10 * 1024 * 1024) /\
  (snd (App.remove_background env st file elapsed) = [] \/
   snd (App.remove_background env st file elapsed) = [FileRead] \/
   exists data,
     read file = inr data /\
     snd (App.remove_background env st file elapsed)
     = [FileRead; RemoveBackground data]).
Proof.
  change (10 * 1024 * 1024) with 10485760.
  split.
  - split.
    + intros Hin. apply pipeline_called_only_when_valid in Hin.
      destruct Hin as [H1 [H2 [H3 H4]]].
      repeat split; try assumption. now apply not_in_allowed_false.
    + intros [Hst [Hal [Hrd Hle]]].
      destruct st as [remover |]; [| congruence].
      apply not_in_allowed_false in Hal.
      rewrite (processed env remover file elapsed d Hal Hrd Hle).
      destruct (ModelLoader.remove_background env remover d); cbn; auto.
  - destruct (handler_cases env st file elapsed)
      as [[Hst E]
         | [[r [Hst [Hna E]]]
           | [[r [e [Hst [Hal [Hrd E]]]]]
             | [[r [err [Hst [Hal [Hrd [Hno E]]]]]]
               | [[r [d' [Hst [Hal [Hrd [Hbig E]]]]]]
                 | [[r [d' [e [Hst [Hal [Hrd [Hsm [Hrb E]]]]]]]]
                   | [r [d' [png [Hst [Hal [Hrd [Hsm [Hrb E]]]]]]]]]]]]]];
      rewrite E; cbn [snd].
    + now left.
    + now left.
    + right. now left.
    + right. now left.
    + right. now left.
    + right. right. exists d'. split; [exact Hrd | reflexivity].
    + right. right. exists d'. split; [exact Hrd | reflexivity].
Qed.

Lemma pipeline_called_iff_witness :
  In (RemoveBackground Demo.at_limit)
     (snd (App.remove_background (Demo.env (inr [x4c]))
             (Some ModelLoader.bg_remover_instance)
             (Demo.upload (Some "image/png"%string) Demo.at_limit) "0.10")).
Proof.
  refine (proj2 (proj1 (pipeline_called_iff
                          (Demo.env (inr [x4c]))
                          (Some ModelLoader.bg_remover_instance)
                          (Demo.upload (Some "image/png"%string) Demo.at_limit)
                          "0.10" Demo.at_limit)) _).
  split; [discriminate |].
  split; [exists "image/png"%string; split; [reflexivity | simpl; tauto] |].
  split; [reflexivity |].
  rewrite at_limit_len. lia.
Defined.

(** X3.  When the read of the upload raises, the pipeline is not called
    and the read is the only call made.  An exception derived from
    [Exception] that is no [HTTPException] ends the request in 500 with a
    message that embeds the failure's text; an [HTTPException] the read
    raised is raised again with its own status and detail; an exception
    from outside [Exception] passes through as it is. *)
Theorem read_failure_outcomes
        (env : Env) (remover : ModelLoader.BackgroundRemover)
        (file : UploadFile) (elapsed : string) (err : error) :
  allowed file ->
  read file = inl err ->
  (forall e,
      err = Other e ->
      App.remove_background env (Some remover) file elapsed
      = (inl (HTTPException 500
                ("Failed to process image: " ++ Py.str e)%string),
         [FileRead]) /\
      includes (Py.str e) ("Failed to process image: " ++ Py.str e)%string) /\
  (forall s d,
      err = HTTPException s d ->
      App.remove_background env (Some remover) file elapsed
      = (inl (HTTPException s d), [FileRead])) /\
  (forall e,
      err = BaseException e ->
      App.remove_background env (Some remover) file elapsed
      = (inl (BaseException e), [FileRead])) /\
  snd (App.remove_background env (Some remover) file elapsed) = [FileRead] /\
  (forall d,
      ~ In (RemoveBackground d)
           (snd (App.remove_background env (Some remover) file elapsed))).
Proof.
  intros Hal Hrd. apply not_in_allowed_false in Hal.
  split; [| split; [| split]].
  - intros e ->. split; [| apply includes_suffix].
    apply (read_fails env remover file elapsed e Hal Hrd).
  - intros s d ->.
    apply (read_raises_through env remover file elapsed _ Hal Hrd).
    discriminate.
  - intros e ->.
    apply (read_raises_through env remover file elapsed _ Hal Hrd).
    discriminate.
  - assert (snd (App.remove_background env (Some remover) file elapsed)
            = [FileRead]) as Hsnd.
    { destruct err as [s d | e | e].
      - rewrite (read_raises_through env remover file elapsed _ Hal Hrd)
          by discriminate.
        reflexivity.
      - now rewrite (read_fails env remover file elapsed e Hal Hrd).
      - rewrite (read_raises_through env remover file elapsed _ Hal Hrd)
          by discriminate.
        reflexivity. }
    split; [exact Hsnd |].
    intros d. rewrite Hsnd. cbn. intros [H | []]. discriminate H.
Qed.

Lemma read_failure_outcomes_witness :
  App.remove_background (Demo.env (inr [x4c]))
    (Some ModelLoader.bg_remover_instance) Demo.unreadable "0.00"
  = (inl (HTTPException 500 "Failed to process image: read failed"),
     [FileRead]) /\
  App.remove_background (Demo.env (inr [x4c]))
    (Some ModelLoader.bg_remover_instance) Demo.teapot "0.00"
  = (inl (HTTPException 418 "I'm a teapot"), [FileRead]) /\
  App.remove_background (Demo.env (inr [x4c]))
    (Some ModelLoader.bg_remover_instance) Demo.cancelled "0.00"
  = (inl (BaseException (Py.Exn "CancelledError" "cancelled")), [FileRead]).
Proof.
  assert (forall err, allowed (Demo.failing err)) as Hal.
  { intros err. exists "image/png"%string.
    split; [reflexivity | simpl; tauto]. }
  split; [| split].
  - refine (proj1 (proj1 (read_failure_outcomes (Demo.env (inr [x4c]))
                            ModelLoader.bg_remover_instance Demo.unreadable
                            "0.00" _ (Hal _) eq_refl) _ eq_refl)).
  - refine (proj1 (proj2 (read_failure_outcomes (Demo.env (inr [x4c]))
                            ModelLoader.bg_remover_instance Demo.teapot
                            "0.00" _ (Hal _) eq_refl)) _ _ eq_refl).
  - refine (proj1 (proj2 (proj2 (read_failure_outcomes (Demo.env (inr [x4c]))
                            ModelLoader.bg_remover_instance Demo.cancelled
                            "0.00" _ (Hal _) eq_refl))) _ eq_refl).
Defined.

End HandlerOutcomes.

(* ===================================================================== *)
(** * Further properties of the loader and the pipeline *)
(* ===================================================================== *)

Section PipelineOutcomes.
Import ModelLoader.

Lemma rgba_step_value (env : Env) (output_bytes : Py.bytes)
      (model_image : PIL.Image) :
  Image_open env output_bytes = inr model_image ->
  rgba_step env output_bytes = inr (as_RGBA model_image).
Proof.
  intros Ho. unfold rgba_step. rewrite Ho, bind_inr.
  destruct model_image as [sz r]. destruct r; reflexivity.
Qed.

(** X4.  The method fails in exactly three places, each wrapped as a
    [RuntimeError] that quotes the cause: the upload does not decode (or its
    resize fails), the model raises, the model's answer does not decode.
    Once those three have gone well it returns the answer as an RGBA PNG;
    nothing after the decode of the answer can fail. *)
Theorem method_outcomes
        (env : Env) (self : BackgroundRemover) (image_data : Py.bytes) :
  (forall cause,
      normalize env image_data = inl cause ->
      remove_background env self image_data
      = inl (Py.RuntimeError
               ("Failed to remove background: " ++ Py.str cause)%string)) /\
  (forall image cause,
      normalize env image_data = inr image ->
      remove env (save_PNG env image) = inl cause ->
      remove_background env self image_data
      = inl (Py.RuntimeError
               ("Failed to remove background: " ++ Py.str cause)%string)) /\
  (forall image model_bytes cause,
      normalize env image_data = inr image ->
      remove env (save_PNG env image) = inr model_bytes ->
      Image_open env model_bytes = inl cause ->
      remove_background env self image_data
      = inl (Py.RuntimeError
               ("Failed to remove background: " ++ Py.str cause)%string)) /\
  (forall image model_bytes model_image,
      normalize env image_data = inr image ->
      remove env (save_PNG env image) = inr model_bytes ->
      Image_open env model_bytes = inr model_image ->
      remove_background env self image_data
      = inr (save_PNG env (as_RGBA model_image))) /\
  (forall e,
      remove_background env self image_data = inl e ->
      Py.exn_class e = "RuntimeError"%string).
Proof.
  split; [| split; [| split; [| split]]].
  - intros cause Hn. now apply normalize_raises_through.
  - intros image cause Hn Hr.
    unfold remove_background, Py.try_except. rewrite Hn, bind_inr.
    unfold segment. cbv zeta. now rewrite Hr.
  - intros image model_bytes cause Hn Hr Ho.
    unfold remove_background, Py.try_except. rewrite Hn, bind_inr.
    unfold segment. cbv zeta. rewrite Hr, bind_inr.
    unfold rgba_step. now rewrite Ho.
  - intros image model_bytes model_image Hn Hr Ho.
    unfold remove_background, Py.try_except. rewrite Hn, bind_inr.
    unfold segment. cbv zeta. rewrite Hr, bind_inr.
    now rewrite (rgba_step_value env model_bytes model_image Ho).
  - intros e He.
    destruct (remove_background_raises env self image_data e He)
      as [cause [_ ->]].
    reflexivity.
Qed.

Lemma method_outcomes_witness :
  remove_background (Demo.env (inr [])) bg_remover_instance [x43]
  = inl (Py.RuntimeError
           "Failed to remove background: cannot identify image file").
Proof.
  apply (proj1 (proj2 (proj2 (method_outcomes
                                (Demo.env (inr [])) bg_remover_instance [x43])))
           Demo.rgb_pixel []
           (Py.Exn "UnidentifiedImageError" "cannot identify image file")
           eq_refl eq_refl eq_refl).
Defined.

(** X5.  Start-up succeeds exactly when rembg was importable and its trial
    call on a 100 x 100 white image returned; the handle is then set.  When
    rembg is missing start-up raises the fixed [RuntimeError]; when the
    trial call raises, start-up raises that very exception. *)
Theorem startup_outcomes (env : Env) (st : App.state) :
  ((exists st', App.startup_event env st = inr st')
   <-> REMBG_AVAILABLE env = true /\
       exists answer,
         remove env (save_PNG env (PIL.new_RGB (100, 100) (255, 255, 255)))
         = inr answer) /\
  (forall st',
      App.startup_event env st = inr st' ->
      st' = Some bg_remover_instance) /\
  (REMBG_AVAILABLE env = false ->
   App.startup_event env st
   = inl (Py.RuntimeError
            "rembg library is not installed. Install it with: pip install rembg[new]")) /\
  (forall e,
      REMBG_AVAILABLE env = true ->
      remove env (save_PNG env (PIL.new_RGB (100, 100) (255, 255, 255)))
      = inl e ->
      App.startup_event env st = inl e).
Proof.
  unfold App.startup_event, init, Py.try_except, Py.bind.
  destruct (REMBG_AVAILABLE env); cbn [negb].
  - destruct (remove env (save_PNG env (PIL.new_RGB (100, 100) (255, 255, 255))))
      as [e | answer].
    + split; [split |].
      * intros [st' H]. discriminate H.
      * intros [_ [answer H]]. discriminate H.
      * split; [intros st' H; discriminate H |].
        split; [discriminate |]. intros e' _ H. injection H as <-. reflexivity.
    + split; [split |].
      * intros _. split; [reflexivity |]. now exists answer.
      * intros _. eexists. reflexivity.
      * split; [intros st' H; injection H as <-; reflexivity |].
        split; [discriminate |]. intros e' _ H. discriminate H.
  - split; [split |].
    + intros [st' H]. discriminate H.
    + intros [H _]. discriminate H.
    + split; [intros st' H; discriminate H |].
      split; [reflexivity |]. intros e H. discriminate H.
Qed.

Lemma startup_outcomes_witness :
  App.startup_event (Demo.env (inl (Py.Exn "OSError" "no network"))) App.initial
  = inl (Py.Exn "OSError" "no network").
Proof.
  apply (proj2 (proj2 (proj2 (startup_outcomes
                                (Demo.env (inl (Py.Exn "OSError" "no network")))
                                App.initial)))).
  - reflexivity.
  - reflexivity.
Defined.

Lemma normalize_inv (env : Env) (image_data : Py.bytes)
      (image normalized : PIL.Image) :
  Image_open env image_data = inr image ->
  normalize env image_data = inr normalized ->
  exists resized,
    resize_step env image = inr resized /\
    rgb_step resized = inr normalized /\
    PIL.mode normalized = "RGB"%string /\
    PIL.size normalized = PIL.size resized.
Proof.
  intros Ho Hn. unfold normalize in Hn. rewrite Ho, bind_inr in Hn.
  destruct (resize_step env image) as [e | resized] eqn:Er;
    [discriminate |].
  rewrite bind_inr in Hn. exists resized.
  destruct (rgb_step_total resized) as [out [Hout [Hmode Hsize]]].
  rewrite Hout in Hn. injection Hn as <-.
  repeat split; assumption.
Qed.

(** X6.  What the normalizer returns is RGB with both sides between 1 and
    2048.  An image of at most 2048 pixels on its longer side keeps its
    size; a larger one comes out at the truncated target size, 2047 or 2048
    pixels on its longer side. *)
Theorem normalized_image_invariant
        (env : Env) (image_data : Py.bytes) (image normalized : PIL.Image) :
  Image_open env image_data = inr image ->
  valid_size (PIL.size image) ->
  normalize env image_data = inr normalized ->
  PIL.mode normalized = "RGB"%string /\
  1 <= fst (PIL.size normalized) <= 2048 /\
  1 <= snd (PIL.size normalized) <= 2048 /\
  (longer_side image <= 2048 -> PIL.size normalized = PIL.size image) /\
  (2048 < longer_side image ->
   new_size (PIL.size image) = inr (PIL.size normalized) /\
   2047 <= longer_side normalized).
Proof.
  intros Ho Hv Hn.
  destruct (normalize_inv env image_data image normalized Ho Hn)
    as [resized [Hr [_ [Hmode Hsize]]]].
  split; [exact Hmode |].
  unfold longer_side in *. rewrite Hsize.
  destruct (Z_le_gt_dec (longer_side image) 2048) as [Hsmall | Hlarge];
    unfold longer_side in *.
  - rewrite (resize_step_small env image Hsmall) in Hr. injection Hr as <-.
    destruct Hv as [Hw Hh]. repeat split; try lia.
  - rewrite (resize_step_large env image) in Hr by (unfold longer_side; lia).
    destruct (new_size (PIL.size image)) as [e | [w h]] eqn:E;
      [discriminate |].
    rewrite bind_inr in Hr. unfold PIL.resize in Hr. cbn [fst snd] in Hr.
    destruct (w <? 1) eqn:Ew; [discriminate |].
    destruct (h <? 1) eqn:Eh; [discriminate |].
    cbn [orb] in Hr. injection Hr as <-. cbn [PIL.size fst snd].
    apply Z.ltb_ge in Ew, Eh.
    pose proof (new_size_bounds (PIL.size image) w h Hv ltac:(lia) E)
      as [_ [_ Hb]].
    repeat split; try lia.
Qed.

Lemma normalized_image_invariant_witness :
  normalize (Demo.env (inr [])) [x53]
  = inr {| PIL.size := (2047, 2);
           PIL.im := Demo.blank Demo.slab (2047, 2) |} /\
  PIL.mode {| PIL.size := (2047, 2);
              PIL.im := Demo.blank Demo.slab (2047, 2) |} = "RGB"%string /\
  new_size (PIL.size Demo.slab) = inr (2047, 2).
Proof.
  assert (normalize (Demo.env (inr [])) [x53]
          = inr {| PIL.size := (2047, 2);
                   PIL.im := Demo.blank Demo.slab (2047, 2) |}) as Hn
    by (vm_compute; reflexivity).
  split; [exact Hn |].
  destruct (normalized_image_invariant
              (Demo.env (inr [])) [x53] Demo.slab
              {| PIL.size := (2047, 2);
                 PIL.im := Demo.blank Demo.slab (2047, 2) |}
              eq_refl ltac:(unfold valid_size; cbn; lia) Hn)
    as [H1 [_ [_ [_ H5]]]].
  split; [exact H1 |].
  apply H5. cbn. lia.
Defined.

Lemma floor_or_less (t x m : Z) :
  0 < m -> t * m <= x <= (t + 1) * m ->
  t = x / m \/ (t = x / m - 1 /\ x mod m = 0).
Proof.
  intros Hm [Hlo Hhi].
  destruct (Z_lt_le_dec x ((t + 1) * m)) as [Hlt | Hge].
  - left. apply Z.div_unique with (x - t * m); lia.
  - right. assert (x = (t + 1) * m) as -> by lia.
    rewrite Z.div_mul, Z.mod_mul by lia. split; lia.
Qed.

(** X7.  For every size with positive sides below 2^31 and a longer side
    over 2048 the target size is defined, and each target side is the
    floor of side * 2048 / longer, or one less when that quotient is whole:
    the aspect ratio is kept within a pixel.  No target side exceeds 2048
    and the longer one is 2047 or 2048. *)
Theorem target_size_within_one_pixel (sz : Z * Z) :
  valid_size sz ->
  2048 < Z.max (fst sz) (snd sz) ->
  exists w h,
    new_size sz = inr (w, h) /\
    (w = 2048 * fst sz / Z.max (fst sz) (snd sz) \/
     (w = 2048 * fst sz / Z.max (fst sz) (snd sz) - 1 /\
      (2048 * fst sz) mod Z.max (fst sz) (snd sz) = 0)) /\
    (h = 2048 * snd sz / Z.max (fst sz) (snd sz) \/
     (h = 2048 * snd sz / Z.max (fst sz) (snd sz) - 1 /\
      (2048 * snd sz) mod Z.max (fst sz) (snd sz) = 0)) /\
    0 <= w <= 2048 /\ 0 <= h <= 2048 /\ 2047 <= Z.max w h.
Proof.
  intros Hv Hlong.
  destruct (new_size_faithful sz Hv Hlong) as [w [h [E [Bw Bh]]]].
  pose proof (new_size_bounds sz w h Hv Hlong E) as [Hw [Hh Hb]].
  exists w, h. split; [exact E |].
  split; [apply floor_or_less; [lia | exact Bw] |].
  split; [apply floor_or_less; [lia | exact Bh] |].
  lia.
Qed.

Lemma target_size_within_one_pixel_witness :
  exists w h,
    new_size (4000, 3000) = inr (w, h) /\
    0 <= w <= 2048 /\ 0 <= h <= 2048 /\ 2047 <= Z.max w h.
Proof.
  destruct (target_size_within_one_pixel (4000, 3000)
              ltac:(unfold valid_size; cbn; lia) ltac:(cbn; lia))
    as [w [h [E [_ [_ B]]]]].
  exists w, h. split; [exact E | exact B].
Defined.

Lemma normalize_succeeds_below_ratio_aux
      (env : Env) (image_data : Py.bytes) (image : PIL.Image) :
  Image_open env image_data = inr image ->
  valid_size (PIL.size image) ->
  longer_side image <= 2048 \/
  longer_side image
  < 2048 * Z.min (fst (PIL.size image)) (snd (PIL.size image)) ->
  exists normalized, normalize env image_data = inr normalized.
Proof.
  intros Ho Hv Hratio.
  assert (exists resized, resize_step env image = inr resized) as [resized Hr].
  { apply resize_step_defined. unfold target_defined.
    destruct (Z_le_gt_dec (longer_side image) 2048) as [Hsmall | Hlarge];
      [now left | right].
    destruct Hratio as [Habs | Hratio]; [lia |].
    unfold longer_side in *.
    destruct (new_size_faithful (PIL.size image) Hv ltac:(lia))
      as [w [h [E [Bw Bh]]]].
    exists (w, h). split; [exact E |]. cbn [fst snd].
    set (m := Z.max (fst (PIL.size image)) (snd (PIL.size image))) in *.
    assert (0 < m) as Hm by lia.
    split.
    - assert (1 * m < (w + 1) * m) as H by lia.
      apply Z.mul_lt_mono_pos_r in H; [lia | exact Hm].
    - assert (1 * m < (h + 1) * m) as H by lia.
      apply Z.mul_lt_mono_pos_r in H; [lia | exact Hm]. }
  destruct (rgb_step_total resized) as [normalized [H1 _]].
  exists normalized.
  now rewrite (normalize_unfold env image_data image resized Ho Hr).
Qed.

(** X8.  The normalizer succeeds on every upload that decodes to an image
    with positive sides below 2^31 whose longer side is at most 2048, or is
    less than 2048 times the shorter side. *)
Theorem normalize_succeeds_below_ratio
        (env : Env) (image_data : Py.bytes) (image : PIL.Image) :
  Image_open env image_data = inr image ->
  valid_size (PIL.size image) ->
  longer_side image <= 2048 \/
  longer_side image
  < 2048 * Z.min (fst (PIL.size image)) (snd (PIL.size image)) ->
  exists normalized,
    normalize env image_data = inr normalized /\
    PIL.mode normalized = "RGB"%string.
Proof.
  intros Ho Hv Hratio.
  destruct (normalize_succeeds_below_ratio_aux env image_data image Ho Hv Hratio)
    as [normalized Hn].
  exists normalized. split; [exact Hn |].
  now destruct (normalize_inv env image_data image normalized Ho Hn)
    as [_ [_ [_ [H _]]]].
Qed.

Lemma normalize_succeeds_below_ratio_witness :
  exists normalized,
    normalize (Demo.env (inr [])) [x53] = inr normalized /\
    PIL.mode normalized = "RGB"%string.
Proof.
  apply (normalize_succeeds_below_ratio (Demo.env (inr [])) [x53] Demo.slab
           eq_refl).
  - unfold valid_size. cbn. lia.
  - right. cbn. lia.
Defined.

(** X9.  Normalizing is idempotent: on an image the normalizer returned,
    the resize step and the conversion to RGB both change nothing. *)
Theorem normalization_is_idempotent
        (env : Env) (image_data : Py.bytes) (image normalized : PIL.Image) :
  Image_open env image_data = inr image ->
  valid_size (PIL.size image) ->
  normalize env image_data = inr normalized ->
  Py.bind (resize_step env normalized) rgb_step = inr normalized.
Proof.
  intros Ho Hv Hn.
  pose proof (normalize_bounded env image_data image normalized Ho Hv Hn) as Hb.
  destruct (normalize_inv env image_data image normalized Ho Hn)
    as [_ [_ [_ [Hmode _]]]].
  rewrite (resize_step_small env normalized Hb), bind_inr.
  now apply rgb_step_RGB.
Qed.

Lemma normalization_is_idempotent_witness :
  normalize (Demo.env (inr [])) [x41]
  = inr {| PIL.size := (1, 1); PIL.im := PIL.ModeRGB [(0, 0, 0)] |} /\
  Py.bind (resize_step (Demo.env (inr []))
             {| PIL.size := (1, 1); PIL.im := PIL.ModeRGB [(0, 0, 0)] |})
          rgb_step
  = inr {| PIL.size := (1, 1); PIL.im := PIL.ModeRGB [(0, 0, 0)] |}.
Proof.
  split; [reflexivity |].
  apply (normalization_is_idempotent (Demo.env (inr [])) [x41] Demo.la_pixel
           {| PIL.size := (1, 1); PIL.im := PIL.ModeRGB [(0, 0, 0)] |}
           eq_refl).
  - unfold valid_size. cbn. lia.
  - reflexivity.
Defined.

(** X10.  [preprocess_image] resizes as the method does and agrees with
    the method's conversion on every mode but RGBA; an RGBA image it
    converts by the standard conversion, dropping the alpha, where the
    method composites the image onto white. *)
Theorem preprocess_image_drops_alpha
        (env : Env) (self : BackgroundRemover) (image : PIL.Image) :
  resample_keeps_mode env ->
  (PIL.mode image <> "RGBA"%string ->
   preprocess_image env self image
   = Py.bind (resize_step env image) rgb_step) /\
  (PIL.mode image = "RGBA"%string ->
   preprocess_image env self image
   = Py.bind (resize_step env image)
       (fun resized => inr (Spec.standard_conversion resized))) /\
  (PIL.mode image = "RGBA"%string ->
   forall resized,
     resize_step env image = inr resized ->
     well_formed resized ->
     rgb_step resized = inr (Spec.composite_on_white resized)).
Proof.
  intros Hkeep.
  assert (preprocess_image env self image
          = Py.bind (resize_step env image)
              (fun resized =>
                 if negb (PIL.mode resized =? "RGB")%string
                 then PIL.convert resized "RGB"
                 else Py.ret resized)) as Hpre by reflexivity.
  split; [| split].
  - intros Hmode. rewrite Hpre.
    destruct (resize_step env image) as [e | resized] eqn:Er; [reflexivity |].
    rewrite !bind_inr.
    pose proof (resize_step_mode env image resized Hkeep Er) as Hm.
    unfold rgb_step.
    destruct (PIL.mode resized =? "RGB")%string eqn:E1; [reflexivity |].
    cbn [negb].
    destruct (PIL.mode resized =? "RGBA")%string eqn:E2; [| reflexivity].
    apply String.eqb_eq in E2. congruence.
  - intros Hmode. rewrite Hpre.
    destruct (resize_step env image) as [e | resized] eqn:Er; [reflexivity |].
    rewrite !bind_inr.
    pose proof (resize_step_mode env image resized Hkeep Er) as Hm.
    rewrite Hm, Hmode. reflexivity.
  - intros Hmode resized Er Hwf.
    pose proof (resize_step_mode env image resized Hkeep Er) as Hm.
    apply rgb_step_RGBA; [exact Hwf | congruence].
Qed.

Lemma preprocess_image_drops_alpha_witness :
  preprocess_image (Demo.env (inr [])) bg_remover_instance Demo.rgba_pixel
  = inr {| PIL.size := (1, 1); PIL.im := PIL.ModeRGB [(10, 20, 30)] |} /\
  rgb_step Demo.rgba_pixel
  = inr {| PIL.size := (1, 1); PIL.im := PIL.ModeRGB [(255, 255, 255)] |}.
Proof.
  split.
  - rewrite (proj1 (proj2 (preprocess_image_drops_alpha
                             (Demo.env (inr [])) bg_remover_instance
                             Demo.rgba_pixel
                             (demo_resample_keeps_mode (inr []))))
               eq_refl).
    reflexivity.
  - rewrite (proj2 (proj2 (preprocess_image_drops_alpha
                             (Demo.env (inr [])) bg_remover_instance
                             Demo.rgba_pixel
                             (demo_resample_keeps_mode (inr []))))
               eq_refl Demo.rgba_pixel eq_refl eq_refl).
    reflexivity.
Defined.

Lemma to_RGB_of_to_RGBA (r : PIL.raster) :
  PIL.to_RGB (PIL.ModeRGBA (PIL.to_RGBA r)) = PIL.to_RGB r.
Proof.
  destruct r as [d | d | d | palette d | d | d | k d | k d];
    cbn [PIL.to_RGB PIL.to_RGBA]; try rewrite map_map.
  - reflexivity.
  - reflexivity.
  - apply map_ext. intros [v a]. reflexivity.
  - apply map_ext. intros i.
    destruct (PIL.palette_entry palette i) as [[[r g] b] a]. reflexivity.
  - rewrite <- (map_id d) at 2. apply map_ext. intros [[r g] b]. reflexivity.
  - reflexivity.
  - reflexivity.
  - rewrite <- (map_id d) at 2. apply map_ext. intros [[r g] b]. reflexivity.
Qed.

(** X11.  Given a model answer that decodes, the adapter returns it as an
    RGBA PNG of the same size and the same colours: an RGBA answer comes
    back pixel for pixel, any other keeps its colour bands and only gains
    the alpha band. *)
Theorem adapter_preserves_model_output
        (env : Env) (image : PIL.Image) (model_bytes : Py.bytes)
        (model_image : PIL.Image) :
  png_lossless env ->
  remove env (save_PNG env image) = inr model_bytes ->
  Image_open env model_bytes = inr model_image ->
  segment env image = inr (save_PNG env (as_RGBA model_image)) /\
  Image_open env (save_PNG env (as_RGBA model_image))
  = inr (as_RGBA model_image) /\
  PIL.size (as_RGBA model_image) = PIL.size model_image /\
  PIL.to_RGB (PIL.im (as_RGBA model_image))
  = PIL.to_RGB (PIL.im model_image) /\
  (PIL.mode model_image = "RGBA"%string -> as_RGBA model_image = model_image).
Proof.
  intros Hpng Hr Ho.
  split.
  { unfold segment. cbv zeta. rewrite Hr, bind_inr.
    now rewrite (rgba_step_value env model_bytes model_image Ho). }
  split; [apply Hpng; reflexivity |].
  split; [reflexivity |].
  split; [apply to_RGB_of_to_RGBA |].
  destruct model_image as [sz r]. unfold PIL.mode. cbn [PIL.im].
  destruct r; cbn; try discriminate. reflexivity.
Qed.

Lemma adapter_preserves_model_output_witness :
  segment (Demo.env (inr (Demo.save Demo.rgba_pixel))) Demo.rgb_pixel
  = inr (Demo.save Demo.rgba_pixel) /\
  Image_open (Demo.env (inr (Demo.save Demo.rgba_pixel)))
    (Demo.save Demo.rgba_pixel)
  = inr Demo.rgba_pixel.
Proof.
  destruct (adapter_preserves_model_output
              (Demo.env (inr (Demo.save Demo.rgba_pixel)))
              Demo.rgb_pixel (Demo.save Demo.rgba_pixel) Demo.rgba_pixel
              (demo_png_lossless _) eq_refl eq_refl)
    as [H1 [H2 _]].
  split; [exact H1 | exact H2].
Defined.

(** X12.  The whole request: with the model loaded, an allowed type, a
    body within the limit that decodes to an image of valid sides and an
    aspect ratio under 2048, and a model whose answer decodes, the handler
    answers 200 with an image/png body that opens as the model's answer
    made RGBA, after one read and one call of the pipeline. *)
Theorem request_end_to_end
        (env : Env) (remover : BackgroundRemover)
        (file : App.UploadFile) (elapsed : string)
        (image_data model_bytes : Py.bytes) (image model_image : PIL.Image) :
  png_lossless env ->
  allowed file ->
  App.read file = inr image_data ->
  App.len image_data <= 10 * 1024 * 1024 ->
  Image_open env image_data = inr image ->
  valid_size (PIL.size image) ->
  longer_side image <= 2048 \/
  longer_side image
  < 2048 * Z.min (fst (PIL.size image)) (snd (PIL.size image)) ->
  (forall normalized,
      normalize env image_data = inr normalized ->
      remove env (save_PNG env normalized) = inr model_bytes) ->
  Image_open env model_bytes = inr model_image ->
  exists png,
    App.remove_background env (Some remover) file elapsed
    = (inr (App.Response png "image/png"
              [("Content-Disposition"%string,
                ("attachment; filename=" ++ App.quoted "bgremoved.png")%string);
               ("X-Processing-Time"%string, elapsed)]),
       [App.FileRead; App.RemoveBackground image_data]) /\
    Image_open env png = inr (as_RGBA model_image) /\
    PIL.mode (as_RGBA model_image) = "RGBA"%string.
Proof.
  intros Hpng Hal Hrd Hlen Ho Hv Hratio Hmodel Hmo.
  change (10 * 1024 * 1024) with 10485760 in Hlen.
  destruct (normalize_succeeds_below_ratio_aux env image_data image Ho Hv Hratio)
    as [normalized Hn].
  pose proof (Hmodel normalized Hn) as Hr.
  assert (remove_background env remover image_data
          = inr (save_PNG env (as_RGBA model_image))) as Hrb.
  { unfold remove_background, Py.try_except. rewrite Hn, bind_inr.
    unfold segment. cbv zeta. rewrite Hr, bind_inr.
    now rewrite (rgba_step_value env model_bytes model_image Hmo). }
  exists (save_PNG env (as_RGBA model_image)).
  apply not_in_allowed_false in Hal.
  rewrite (processed env remover file elapsed image_data Hal Hrd Hlen), Hrb.
  split; [reflexivity |].
  split; [apply Hpng; reflexivity | reflexivity].
Qed.

Lemma request_end_to_end_witness :
  exists png,
    App.remove_background (Demo.env (inr [x4c]))
      (Some bg_remover_instance)
      (Demo.upload (Some "image/jpeg"%string) [x53]) "0.42"
    = (inr (App.Response png "image/png"
              [("Content-Disposition"%string,
                ("attachment; filename=" ++ App.quoted "bgremoved.png")%string);
               ("X-Processing-Time"%string, "0.42"%string)]),
       [App.FileRead; App.RemoveBackground [x53]]) /\
    Image_open (Demo.env (inr [x4c])) png = inr (as_RGBA Demo.grey_pixel) /\
    PIL.mode (as_RGBA Demo.grey_pixel) = "RGBA"%string.
Proof.
  apply (request_end_to_end (Demo.env (inr [x4c])) bg_remover_instance
           (Demo.upload (Some "image/jpeg"%string) [x53]) "0.42"
           [x53] [x4c] Demo.slab Demo.grey_pixel
           (demo_png_lossless _)).
  - exists "image/jpeg"%string. split; [reflexivity | simpl; tauto].
  - reflexivity.
  - cbn. lia.
  - reflexivity.
  - unfold valid_size. cbn. lia.
  - right. cbn. lia.
  - intros normalized _. reflexivity.
  - reflexivity.
Defined.

End PipelineOutcomes.
